(** * The MonetDB control client ([monetdb/control.py]), embedded in Rocq

    The development follows the source file top-down:

    - the Python built-ins the file relies on ([str.startswith],
      [str.split], [int], [float], [datetime.fromtimestamp], iterators),
    - [parse_statusline], the decoder of one [sabdb] status line,
    - [isempty] and the [Control] class, whose methods talk to the
      supervisor through a transport that is a parameter of the model,
    - the properties of the specification, settled one by one. *)

From Stdlib Require Import ZArith String Ascii List Bool Lia SpecFloat.
From stdpp Require Import base strings gmap list pretty.

Local Open Scope string_scope.
Local Open Scope Z_scope.

(** ** Exceptions and results *)

(** Modelled from the spec: [OperationalError] and [InterfaceError] are
    declared in [monetdb/exceptions.py], which is not part of the sources at
    hand.  They are two distinct exception classes, each carrying its message.
    The remaining constructors are Python's own exceptions that the code can
    let escape:
    - [StopIteration], raised by [next] on an exhausted iterator;
    - [ValueError], raised by [int], by [float] and by a tuple unpacking of
      the wrong length ([detail] is the offending text, the interpreter's
      wording of the message is not modelled);
    - [TimestampRangeError], standing for what [datetime.fromtimestamp] raises
      on an epoch it cannot represent (a [ValueError], [OverflowError] or
      [OSError] depending on the platform and on the magnitude);
    - [OtherError], any further exception a transport may raise. *)
Inductive exn : Type :=
| OperationalError (msg : string)
| InterfaceError (msg : string)
| StopIteration
| ValueError (detail : string)
| TimestampRangeError (epoch : Z)
| OtherError (cls msg : string).

(** The class of an exception, which is what an [except] clause discriminates
    on. *)
Inductive exn_class : Type :=
| ClsOperationalError | ClsInterfaceError | ClsStopIteration | ClsValueError
| ClsTimestampRange | ClsOther (cls : string).

Definition class_of (e : exn) : exn_class :=
  match e with
  | OperationalError _ => ClsOperationalError
  | InterfaceError _ => ClsInterfaceError
  | StopIteration => ClsStopIteration
  | ValueError _ => ClsValueError
  | TimestampRangeError _ => ClsTimestampRange
  | OtherError c _ => ClsOther c
  end.

(** A Python evaluation either returns a value or raises. *)
Inductive result (A : Type) : Type :=
| Return (a : A)
| Raise (e : exn).
Arguments Return {A} a.
Arguments Raise {A} e.

Definition rbind {A B} (r : result A) (k : A -> result B) : result B :=
  match r with
  | Return a => k a
  | Raise e => Raise e
  end.

Definition returns {A} (r : result A) : bool :=
  match r with Return _ => true | Raise _ => false end.

(** ** Python strings *)

(** A string is a sequence of characters with code points below 256 (the
    Latin-1 range of a Python [str]).  Every character the source tests for
    is ASCII; of the characters beyond ASCII only the two white space
    characters, 133 and 160, mean anything to the code, through [int] and
    [float]. *)

Module Str.

(** [s.startswith(p)] *)
Definition startswith (s p : string) : bool := String.prefix p s.

(** [s[1:]] *)
Definition tail (s : string) : string :=
  match s with
  | EmptyString => EmptyString
  | String _ s' => s'
  end.

(** [c in s] for a one-character [c] *)
Fixpoint contains (c : ascii) (s : string) : bool :=
  match s with
  | EmptyString => false
  | String a s' => if Ascii.eqb a c then true else contains c s'
  end.

(** Prepends [c] to the first word of a split. *)
Definition push (c : ascii) (ws : list string) : list string :=
  match ws with
  | [] => [String c EmptyString]
  | w :: ws' => String c w :: ws'
  end.

(** [s.split(sep)], for the one-character separators of the source.  The
    result is never empty: [''.split(sep) == ['']]. *)
Fixpoint split (sep : ascii) (s : string) : list string :=
  match s with
  | EmptyString => [EmptyString]
  | String c s' =>
      if Ascii.eqb c sep then EmptyString :: split sep s'
      else push c (split sep s')
  end.

(** [s.split(sep, maxsplit)]: at most [maxsplit] cuts, the remainder is kept
    whole as the last element. *)
Fixpoint split_max (sep : ascii) (s : string) (maxsplit : nat) {struct s}
  : list string :=
  match maxsplit with
  | O => [s]
  | S n =>
      match s with
      | EmptyString => [EmptyString]
      | String c s' =>
          if Ascii.eqb c sep then EmptyString :: split_max sep s' n
          else push c (split_max sep s' maxsplit)
      end
  end.

(** Membership of a string in a list of strings ([x in [...]]). *)
Definition mem (x : string) (l : list string) : bool :=
  existsb (String.eqb x) l.

(** White space as [int] and [float] strip it from a [str]: tab, line feed,
    vertical tab, form feed, carriage return and space, and the white space
    beyond ASCII (next line, 133, and no-break space, 160), which the
    interpreter turns into spaces before it reads the number.  The
    separators 28 to 31 are not stripped, although [str.isspace] holds for
    them. *)
Definition is_space (c : ascii) : bool :=
  let n := nat_of_ascii c in
  ((9 <=? n) && (n <=? 13) || (n =? 32) || (n =? 133) || (n =? 160))%nat.

Fixpoint lstrip (s : string) : string :=
  match s with
  | EmptyString => EmptyString
  | String c s' => if is_space c then lstrip s' else s
  end.

Fixpoint rstrip (s : string) : string :=
  match s with
  | EmptyString => EmptyString
  | String c s' =>
      match rstrip s' with
      | EmptyString => if is_space c then EmptyString else String c EmptyString
      | t => String c t
      end
  end.

Definition strip (s : string) : string := rstrip (lstrip s).

Definition is_digit (c : ascii) : bool :=
  let n := nat_of_ascii c in ((48 <=? n) && (n <=? 57))%nat.

Definition digit_val (c : ascii) : Z := Z.of_nat (nat_of_ascii c) - 48.

(** Lower-cases an ASCII letter. *)
Definition lower (c : ascii) : ascii :=
  let n := nat_of_ascii c in
  if ((65 <=? n) && (n <=? 90))%nat then ascii_of_nat (n + 32) else c.

Fixpoint lowercase (s : string) : string :=
  match s with
  | EmptyString => EmptyString
  | String c s' => String (lower c) (lowercase s')
  end.

End Str.

(** ** [int(str)] and [float(str)] *)

Module Num.

(** Numeric literals may group digits with single underscores.  As the
    interpreter does, the underscores are removed after checking that each
    one stands between two digits; [prev] is the previous character. *)
Fixpoint strip_underscores (prev : option ascii) (s : string)
  : option string :=
  match s with
  | EmptyString =>
      match prev with
      | Some "_"%char => None
      | _ => Some EmptyString
      end
  | String c s' =>
      if Ascii.eqb c "_" then
        match prev with
        | Some p =>
            if Str.is_digit p then strip_underscores (Some c) s' else None
        | None => None
        end
      else
        match prev with
        | Some "_"%char =>
            if Str.is_digit c
            then option_map (String c) (strip_underscores (Some c) s')
            else None
        | _ => option_map (String c) (strip_underscores (Some c) s')
        end
  end.

(** The value of a string of decimal digits, [None] when another character
    occurs. *)
Fixpoint digits_value (acc : Z) (s : string) : option Z :=
  match s with
  | EmptyString => Some acc
  | String c s' =>
      if Str.is_digit c then digits_value (10 * acc + Str.digit_val c) s'
      else None
  end.

(** The most digits [int] converts ([sys.int_max_str_digits], with the
    default the interpreter has had since version 3.11). *)
Definition max_str_digits : nat := 4300.

(** A non-empty string of digits with optional grouping underscores, of
    at most [max_str_digits] digits. *)
Definition unsigned_value (s : string) : option Z :=
  match strip_underscores None s with
  | Some EmptyString => None
  | Some d =>
      if (max_str_digits <? String.length d)%nat then None
      else digits_value 0 d
  | None => None
  end.

(** [int(s)] in base 10: surrounding white space, an optional sign, then
    digits. *)
Definition py_int (s : string) : result Z :=
  let t := Str.strip s in
  let r :=
    match t with
    | String "+" u => unsigned_value u
    | String "-" u => option_map Z.opp (unsigned_value u)
    | _ => unsigned_value t
    end in
  match r with
  | Some z => Return z
  | None => Raise (ValueError s)
  end.

(** A Python float is a binary64 value: a signed zero, a signed infinity,
    a NaN, or [(-1)^s * m * 2^e] with [m] below [2^53]. *)
Definition pyfloat : Type := spec_float.

(** The binary64 value nearest to the quotient [n / d] of a natural number
    by a positive one, ties going to the even mantissa, with the sign
    [negative]: the quotient is taken with enough bits for the position of
    the remainder to decide the rounding; a quotient too large becomes an
    infinity, one too small a zero or a subnormal number. *)
Definition nearest_binary64 (negative : bool) (n d : Z) : pyfloat :=
  match n with
  | Z0 => S754_zero negative
  | _ =>
      let '(q, e, l) := SFdiv_core_binary 53 1024 n 0 d 0 in
      binary_round_aux 53 1024 negative q e l
  end.

(** The binary64 value nearest to [mantissa * 10 ^ exp10]. *)
Definition of_decimal (negative : bool) (mantissa exp10 : Z) : pyfloat :=
  nearest_binary64 negative
    (mantissa * 10 ^ Z.max exp10 0) (10 ^ Z.max (- exp10) 0).

(** Splits a string into its longest prefix of digits and the rest. *)
Fixpoint span_digits (s : string) : string * string :=
  match s with
  | EmptyString => (EmptyString, EmptyString)
  | String c s' =>
      if Str.is_digit c
      then let '(d, r) := span_digits s' in (String c d, r)
      else (EmptyString, s)
  end.

Definition digits_or_zero (d : string) : Z :=
  match digits_value 0 d with Some z => z | None => 0 end.

(** The value of a non-empty string of digits. *)
Definition nonempty_digits (d : string) : option Z :=
  match d with
  | EmptyString => None
  | _ => digits_value 0 d
  end.

(** The exponent part: [e] or [E], an optional sign and at least one digit,
    up to the end of the text.  An absent exponent is [0]. *)
Definition exponent (s : string) : option Z :=
  match s with
  | EmptyString => Some 0
  | String c u =>
      if Ascii.eqb (Str.lower c) "e" then
        match u with
        | String "+" v => nonempty_digits v
        | String "-" v => option_map Z.opp (nonempty_digits v)
        | _ => nonempty_digits u
        end
      else None
  end.

(** An unsigned finite literal: digits with an optional fraction, or a
    fraction alone, then an optional exponent.  The result is the pair of
    the mantissa and the power of ten. *)
Definition unsigned_decimal (s : string) : option (Z * Z) :=
  let '(ip, r) := span_digits s in
  let '(fp, r') :=
    match r with
    | String "." u => span_digits u
    | _ => (EmptyString, r)
    end in
  match (ip ++ fp)%string with
  | EmptyString => None
  | ds =>
      match exponent r' with
      | Some e =>
          Some (digits_or_zero ds, e - Z.of_nat (String.length fp))
      | None => None
      end
  end.

(** [inf], [infinity] and [nan], in any letter case. *)
Definition unsigned_special (s : string) : option pyfloat :=
  let l := Str.lowercase s in
  if String.eqb l "inf" || String.eqb l "infinity"
  then Some (S754_infinity false)
  else if String.eqb l "nan" then Some S754_nan
  else None.

Definition negate (f : pyfloat) : pyfloat := SFopp f.

Definition unsigned_float (s : string) : option pyfloat :=
  match unsigned_special s with
  | Some f => Some f
  | None =>
      match unsigned_decimal s with
      | Some (m, e) => Some (of_decimal false m e)
      | None => None
      end
  end.

(** [float(s)]: surrounding white space is stripped, grouping underscores
    are checked and removed, then an optional sign and a finite literal or
    a special value must fill the whole text.  The value is the binary64
    number nearest to the decimal one. *)
Definition py_float (s : string) : result pyfloat :=
  let r :=
    match strip_underscores None (Str.strip s) with
    | Some (String "+" u) => unsigned_float u
    | Some (String "-" u) => option_map negate (unsigned_float u)
    | Some t => unsigned_float t
    | None => None
    end in
  match r with
  | Some f => Return f
  | None => Raise (ValueError s)
  end.

End Num.

(** ** Iterators over the comma-separated tokens *)

(** [sub_iter = iter(subparts)] is a cursor into the token list; a step of the
    decoder reads the cursor and leaves the advanced one. *)
Definition Decoder (A : Type) : Type :=
  list string -> result (A * list string).

Definition dret {A} (a : A) : Decoder A := fun it => Return (a, it).

Definition dbind {A B} (m : Decoder A) (k : A -> Decoder B) : Decoder B :=
  fun it =>
    match m it with
    | Return (a, it') => k a it'
    | Raise e => Raise e
    end.

(** Lifts an evaluation that does not touch the iterator. *)
Definition dlift {A} (r : result A) : Decoder A :=
  fun it =>
    match r with
    | Return a => Return (a, it)
    | Raise e => Raise e
    end.

(** [next(sub_iter)] *)
Definition next : Decoder string :=
  fun it =>
    match it with
    | [] => Raise StopIteration
    | tok :: it' => Return (tok, it')
    end.

Declare Scope decoder_scope.
Delimit Scope decoder_scope with dec.
Notation "'let*' x ':=' m 'in' k" := (dbind m (fun x => k))
  (at level 10, x name, m at level 100, k at level 200) : decoder_scope.

(** [int(next(sub_iter))] and [float(next(sub_iter))] *)
Definition next_int : Decoder Z :=
  (let* tok := next in dlift (Num.py_int tok))%dec.

Definition next_float : Decoder Num.pyfloat :=
  (let* tok := next in dlift (Num.py_float tok))%dec.

(** ** [datetime.fromtimestamp] *)

(** The local time zone of the process, which [fromtimestamp] reads from its
    environment: the offset of the local wall clock from UTC, in seconds, at
    every instant.  No zone is a day or more away from UTC. *)
Record zone : Type := Zone {
  utcoffset : Z -> Z;
  utcoffset_bounded : forall u, (Z.abs (utcoffset u) <? 86400) = true
}.

Definition utc : zone :=
  {| utcoffset := fun _ => 0; utcoffset_bounded := fun _ => eq_refl |}.

(** Zones of a fixed offset, nine hours east and five hours west of UTC, and
    a zone whose clock is set back by one hour at the instant 1000. *)
Definition east_9h : zone :=
  {| utcoffset := fun _ => 32400; utcoffset_bounded := fun _ => eq_refl |}.

Definition west_5h : zone :=
  {| utcoffset := fun _ => -18000; utcoffset_bounded := fun _ => eq_refl |}.

Definition set_back : zone :=
  {| utcoffset := fun u => if u <? 1000 then 7200 else 3600;
     utcoffset_bounded := fun u =>
       match u <? 1000 as b
             return (Z.abs (if b then 7200 else 3600) <? 86400) = true with
       | true => eq_refl
       | false => eq_refl
       end |}.

(** A naive [datetime]: the reading of the local wall clock, counted in
    seconds from 1970-01-01 00:00:00 on that clock (the fields from the year
    to the second are in one-to-one correspondence with this count, and the
    calendar arithmetic is left to the library), and the attribute
    [fold]. *)
Record datetime : Type := Datetime { wall_seconds : Z; fold : bool }.

(** [datetime] covers the years 1 to 9999: the readings from
    0001-01-01 00:00:00 to 9999-12-31 23:59:59. *)
Definition min_wall : Z := -62135596800.
Definition max_wall : Z := 253402300799.

Definition in_years (s : Z) : bool := (min_wall <=? s) && (s <=? max_wall).

(** How far back the library looks for a clock that was set back. *)
Definition max_fold_seconds : Z := 86400.

(** The instants a [time_t] of 64 bits holds. *)
Definition fits_time_t (t : Z) : bool := (- 2 ^ 63 <=? t) && (t <? 2 ^ 63).

Section LocalZone.

Context (tz : zone).

(** The reading of the wall clock at the instant [u]. *)
Definition wall_clock (u : Z) : Z := u + utcoffset tz u.

(** By how much the wall clock advanced over the day before [t], less that
    day: negative when the clock was set back in between. *)
Definition transition (t : Z) : Z :=
  wall_clock t - wall_clock (t - max_fold_seconds) - max_fold_seconds.

(** [fromtimestamp] takes the reading at [t], the reading one day earlier
    and, when the clock was set back in between, the reading at
    [t + transition]; each of them must lie in the years of [datetime]. *)
Definition representable (t : Z) : bool :=
  fits_time_t t
  && in_years (wall_clock t)
  && in_years (wall_clock (t - max_fold_seconds))
  && (if transition t <? 0 then in_years (wall_clock (t + transition t))
      else true).

(** The attribute [fold]: set when the reading at [t] occurred a first time
    before the clock was set back. *)
Definition fold_at (t : Z) : bool :=
  (transition t <? 0) && (wall_clock (t + transition t) =? wall_clock t).

Definition local_datetime (t : Z) : datetime :=
  Datetime (wall_clock t) (fold_at t).

(** [datetime.fromtimestamp(t)] for an [int], on a POSIX system that counts
    no leap seconds.  What it raises when a reading is out of range (a
    [ValueError], [OverflowError] or [OSError]) is [TimestampRangeError]. *)
Definition fromtimestamp (t : Z) : result datetime :=
  if representable t then Return (local_datetime t)
  else Raise (TimestampRangeError t).

(** ** [parse_statusline] *)

(** The dictionary [info] that [parse_statusline] returns.  Its keys are
    fixed, except that ['last_stop'] is only set for protocol version 2:
    [last_stop = None] is a dictionary without that key, [Some None] the key
    bound to Python's [None]. *)
Record sabdb_info : Type := SabdbInfo {
  name : string;
  path : string;
  locked : bool;
  state : Z;
  scenarios : list string;
  start_counter : Z;
  stop_counter : Z;
  crash_counter : Z;
  avg_uptime : Z;
  max_uptime : Z;
  min_uptime : Z;
  last_crash : option datetime;
  last_start : datetime;
  last_stop : option (option datetime);
  crash_avg1 : bool;
  crash_avg10 : Num.pyfloat;
  crash_avg30 : Num.pyfloat
}.

(** Line 60: [dt.fromtimestamp(int(last_crash)) if last_crash >= 0 else
    None]. *)
Definition decode_last_crash (last_crash_ : Z) : result (option datetime) :=
  if last_crash_ >=? 0
  then rbind (fromtimestamp last_crash_) (fun d => Return (Some d))
  else Return None.

(** Lines 64 to 67: the value bound to ['last_stop'] under version 2. *)
Definition decode_last_stop (value : Z) : result (option datetime) :=
  if value >? -1
  then rbind (fromtimestamp value) (fun d => Return (Some d))
  else Return None.

(** Lines 46 to 72 of the source: the positional decoding of the tokens, for
    an accepted protocol version. *)
Definition decode_fields (prot_version : Z) : Decoder sabdb_info :=
  (let* i_name := next in
   let* i_path := next in
   let* tok_locked := next in
   let* i_state := next_int in
   let* tok_scenarios := next in
   let* _ :=
     (if prot_version =? 1 then (let* _ := next in dret tt) else dret tt) in
   let* i_start_counter := next_int in
   let* i_stop_counter := next_int in
   let* i_crash_counter := next_int in
   let* i_avg_uptime := next_int in
   let* i_max_uptime := next_int in
   let* i_min_uptime := next_int in
   let* v_last_crash := next_int in
   let* i_last_crash := dlift (decode_last_crash v_last_crash) in
   let* v_last_start := next_int in
   let* i_last_start := dlift (fromtimestamp v_last_start) in
   let* i_last_stop :=
     (if prot_version >? 1 then
        (let* value := next_int in
         let* d := dlift (decode_last_stop value) in
         dret (Some d))
      else dret None) in
   let* tok_crash_avg1 := next in
   let* i_crash_avg10 := next_float in
   let* i_crash_avg30 := next_float in
   dret {| name := i_name;
           path := i_path;
           locked := String.eqb tok_locked "1";
           state := i_state;
           scenarios := Str.split "'" tok_scenarios;
           start_counter := i_start_counter;
           stop_counter := i_stop_counter;
           crash_counter := i_crash_counter;
           avg_uptime := i_avg_uptime;
           max_uptime := i_max_uptime;
           min_uptime := i_min_uptime;
           last_crash := i_last_crash;
           last_start := i_last_start;
           last_stop := i_last_stop;
           crash_avg1 := String.eqb tok_crash_avg1 "1";
           crash_avg10 := i_crash_avg10;
           crash_avg30 := i_crash_avg30 |})%dec.

(** Line 29 and 30: one leading ["="] is dropped. *)
Definition strip_marker (line : string) : string :=
  if Str.startswith line "=" then Str.tail line else line.

(** Parses a sabdb format status line, versions 1 and 2. *)
Definition parse_statusline (line : string) : result sabdb_info :=
  let line := strip_marker line in
  if negb (Str.startswith line "sabdb:") then
    Raise (OperationalError "wrong result recieved")
  else
    match Str.split_max ":" line 2 with
    | [code; prot_version; rest] =>
        if negb (Str.mem prot_version ["1"; "2"]) then
          Raise (InterfaceError "unsupported sabdb protocol")
        else
          rbind (Num.py_int prot_version) (fun prot_version =>
          let subparts := Str.split "," rest in
          match decode_fields prot_version subparts with
          | Return (info, _) => Return info
          | Raise e => Raise e
          end)
    | _ => Raise (ValueError line)
    end.

Definition example_line : string :=
  "sabdb:2:mydb,/var/db/mydb,0,1,'sql',3,2,0,120,300,10,-1,1700000000,1700005000,1,0.0,0.0".

(** What the example line decodes to, in the zone of the process. *)
Definition example_info : sabdb_info :=
  {| name := "mydb";
     path := "/var/db/mydb";
     locked := false;
     state := 1;
     scenarios := [""; "sql"; ""];
     start_counter := 3;
     stop_counter := 2;
     crash_counter := 0;
     avg_uptime := 120;
     max_uptime := 300;
     min_uptime := 10;
     last_crash := None;
     last_start := local_datetime 1700000000;
     last_stop := Some (Some (local_datetime 1700005000));
     crash_avg1 := true;
     crash_avg10 := S754_zero false;
     crash_avg30 := S754_zero false |}.

(** ** [isempty] *)

(** Raises an exception if the result is not empty. *)
Definition isempty (result_ : string) : result bool :=
  if negb (String.eqb result_ "") then Raise (OperationalError result_)
  else Return true.

(** ** The transport *)

(** The keyword arguments of [Connection.connect]. *)
Record connect_args : Type := ConnectArgs {
  c_hostname : option string;
  c_port : Z;
  c_username : string;
  c_password : option string;
  c_database : string;
  c_language : string;
  c_unix_socket : string
}.

(** Modelled from the spec: [mapi.Connection], declared in [monetdb/mapi.py],
    is not part of the sources at hand.  The control layer uses three of its
    operations, [connect], [cmd] and [disconnect]; each acts on the state of
    the connection object and may raise.  Nothing else is assumed of it. *)
Record Transport : Type := {
  conn : Type;
  t_connect : connect_args -> conn -> result unit * conn;
  t_cmd : string -> conn -> result string * conn;
  t_disconnect : conn -> result unit * conn
}.

(** The calls made on the transport, in the order they are made. *)
Inductive call : Type :=
| CallConnect (args : connect_args)
| CallCmd (request : string)
| CallDisconnect.

(** The line feed, as a character and as a string. *)
Definition lf : ascii := "010"%char.
Definition newline : string := String lf EmptyString.

(** The values [status] is called with for [database_name]: [None], a Boolean
    (the default is [False]), a string, or an object of any other type (a
    number, a byte string, a container, ...).  Of such an object the method
    only uses the truth value [bool(x)] and the text [str(x)], which stand
    for it here; both are taken to return. *)
Inductive pyvalue : Type :=
| PyNone
| PyBool (b : bool)
| PyStr (s : string)
| PyObject (truth : bool) (text : string).

(** The truth value an [if] tests. *)
Definition truthy (v : pyvalue) : bool :=
  match v with
  | PyNone => false
  | PyBool b => b
  | PyStr s => negb (String.eqb s "")
  | PyObject truth _ => truth
  end.

(** [str(v)], which is what ["%s" % v] inserts. *)
Definition str_of (v : pyvalue) : string :=
  match v with
  | PyNone => "None"
  | PyBool true => "True"
  | PyBool false => "False"
  | PyStr s => s
  | PyObject _ text => text
  end.

(** What [status] returns: one dictionary, or a list of them. *)
Inductive status_result : Type :=
| OneStatus (info : sabdb_info)
| AllStatus (infos : list sabdb_info).

(** [[parse_statusline(line) for line in lines]]: the lines are decoded in
    order and the first failure ends the comprehension. *)
Fixpoint parse_lines (lines : list string) : result (list sabdb_info) :=
  match lines with
  | [] => Return []
  | line :: rest =>
      rbind (parse_statusline line) (fun info =>
      rbind (parse_lines rest) (fun infos =>
      Return (info :: infos)))
  end.

(** The body of the loop of [get]: one line of the reply updates the
    dictionary [values].  Under the test ["=" in line] the split has at least
    two elements, so that [split[0]] and [split[1]] exist (lemma
    [split_contains_length] below). *)
Definition get_step (values : gmap string string) (line : string)
  : gmap string string :=
  let line := if Str.startswith line "=" then Str.tail line else line in
  if negb (Str.startswith line "#") then
    if Str.contains "=" line then
      let split := Str.split "=" line in
      <[nth 0 split "" := nth 1 split ""]> values
    else values
  else values.

(** The loop of [get] over the lines of the reply. *)
Definition get_values (properties : string) : gmap string string :=
  fold_left get_step (Str.split lf properties) ∅.

Section WithTransport.

Context (T : Transport).

(** The part of the world a method acts on: [self.server], and the record
    of the calls made on it so far. *)
Record world : Type := World {
  server : conn T;
  calls : list call
}.

Definition IO (A : Type) : Type := world -> result A * world.

Definition io_ret {A} (a : A) : IO A := fun w => (Return a, w).

Definition io_bind {A B} (m : IO A) (k : A -> IO B) : IO B :=
  fun w =>
    match m w with
    | (Return a, w') => k a w'
    | (Raise e, w') => (Raise e, w')
    end.

(** [try: body finally: handler].  The handler runs whether the body
    returned or raised; an exception of the handler replaces the outcome of
    the body. *)
Definition try_finally {A} (body : IO A) (handler : IO unit) : IO A :=
  fun w =>
    let '(r, w1) := body w in
    match handler w1 with
    | (Return _, w2) => (r, w2)
    | (Raise e, w2) => (Raise e, w2)
    end.

(** Evaluates a pure computation inside a method. *)
Definition io_lift {A} (r : result A) : IO A := fun w => (r, w).

Definition server_connect (args : connect_args) : IO unit :=
  fun w =>
    let '(r, s) := t_connect T args (server w) in
    (r, {| server := s; calls := calls w ++ [CallConnect args] |}).

Definition server_cmd (request : string) : IO string :=
  fun w =>
    let '(r, s) := t_cmd T request (server w) in
    (r, {| server := s; calls := calls w ++ [CallCmd request] |}).

Definition server_disconnect : IO unit :=
  fun w =>
    let '(r, s) := t_disconnect T (server w) in
    (r, {| server := s; calls := calls w ++ [CallDisconnect] |}).

(** ** The class [Control] *)

(** The attributes of a [Control] object besides [server]. *)
Record Control : Type := {
  hostname : option string;
  port : Z;
  passphrase : option string;
  unix_socket : string
}.

Definition control_args (self : Control) : connect_args :=
  {| c_hostname := hostname self;
     c_port := port self;
     c_username := "monetdb";
     c_password := passphrase self;
     c_database := "merovingian";
     c_language := "control";
     c_unix_socket := unix_socket self |}.

(** Truth value of an optional string ([None] and [''] are false). *)
Definition truthy_opt (o : option string) : bool :=
  match o with
  | Some s => negb (String.eqb s "")
  | None => false
  end.

(** [Control.__init__]; [system] is the value of [platform.system()].  A
    socket path that is [None] or empty is replaced by the default one, built
    from the port with ["%i"]. *)
Definition __init__ (system : string) (i_hostname : option string) (i_port : Z)
           (i_passphrase i_unix_socket : option string) : IO Control :=
  let i_unix_socket :=
    match i_unix_socket with
    | Some s => if String.eqb s "" then None else Some s
    | None => None
    end in
  let i_unix_socket :=
    match i_unix_socket with
    | Some s => s
    | None => "/tmp/.s.merovingian." ++ pretty i_port
    end in
  let i_hostname :=
    if String.eqb system "Windows" && negb (truthy_opt i_hostname)
    then Some "localhost" else i_hostname in
  let self :=
    {| hostname := i_hostname; port := i_port;
       passphrase := i_passphrase; unix_socket := i_unix_socket |} in
  io_bind (server_connect (control_args self)) (fun _ =>
  io_bind server_disconnect (fun _ =>
  io_ret self)).

Definition request_line (database_name command : string) : string :=
  database_name ++ " " ++ command ++ newline.

Definition _send_command (self : Control) (database_name command : string)
  : IO string :=
  io_bind (server_connect (control_args self)) (fun _ =>
  try_finally
    (server_cmd (request_line database_name command))
    server_disconnect).

Definition create (self : Control) (database_name : string) : IO bool :=
  io_bind (_send_command self database_name "create") (fun r =>
  io_lift (isempty r)).

Definition destroy (self : Control) (database_name : string) : IO bool :=
  io_bind (_send_command self database_name "destroy") (fun r =>
  io_lift (isempty r)).

Definition lock (self : Control) (database_name : string) : IO bool :=
  io_bind (_send_command self database_name "lock") (fun r =>
  io_lift (isempty r)).

Definition release (self : Control) (database_name : string) : IO bool :=
  io_bind (_send_command self database_name "release") (fun r =>
  io_lift (isempty r)).

Definition start (self : Control) (database_name : string) : IO bool :=
  io_bind (_send_command self database_name "start") (fun r =>
  io_lift (isempty r)).

Definition stop (self : Control) (database_name : string) : IO bool :=
  io_bind (_send_command self database_name "stop") (fun r =>
  io_lift (isempty r)).

Definition kill (self : Control) (database_name : string) : IO bool :=
  io_bind (_send_command self database_name "kill") (fun r =>
  io_lift (isempty r)).

Definition set (self : Control) (database_name property_ value : string)
  : IO bool :=
  io_bind (_send_command self database_name (property_ ++ "=" ++ value))
    (fun r => io_lift (isempty r)).

Definition inherit (self : Control) (database_name property_ : string)
  : IO bool :=
  io_bind (_send_command self database_name (property_ ++ "="))
    (fun r => io_lift (isempty r)).

Definition rename (self : Control) (old new : string) : IO bool :=
  set self old "name" new.

Definition neighbours (self : Control) : IO string :=
  _send_command self "anelosimus" "eximius".

Definition status (self : Control) (database_name : pyvalue)
  : IO status_result :=
  if truthy database_name then
    io_bind (_send_command self (str_of database_name) "status") (fun raw =>
    io_lift (rbind (parse_statusline raw) (fun info =>
             Return (OneStatus info))))
  else
    io_bind (_send_command self "#all" "status") (fun raw =>
    io_lift (rbind (parse_lines (Str.split lf raw)) (fun infos =>
             Return (AllStatus infos)))).

Definition get (self : Control) (database_name : string)
  : IO (gmap string string) :=
  io_bind (_send_command self database_name "get") (fun properties =>
  io_ret (get_values properties)).

Definition defaults (self : Control) : IO (gmap string string) :=
  get self "#defaults".

End WithTransport.

Arguments World {T} _ _.
Arguments io_ret {T A} a w.
Arguments io_bind {T A B} m k w.
Arguments io_lift {T A} r w.
Arguments try_finally {T A} body handler w.
Arguments server {T} _.
Arguments calls {T} _.

(** A transport whose three operations succeed, and whose [cmd] answers
    [reply] whatever the request. *)
Definition answering (reply : string) : Transport :=
  {| conn := unit;
     t_connect := fun _ s => (Return tt, s);
     t_cmd := fun _ s => (Return reply, s);
     t_disconnect := fun s => (Return tt, s) |}.

(** A transport whose [cmd] raises [e]. *)
Definition failing (e : exn) : Transport :=
  {| conn := unit;
     t_connect := fun _ s => (Return tt, s);
     t_cmd := fun _ s => (Raise e, s);
     t_disconnect := fun s => (Return tt, s) |}.

Definition local_control : Control :=
  {| hostname := None; port := 50000; passphrase := Some "secret";
     unix_socket := "/tmp/.s.merovingian.50000" |}.

Definition fresh (T : Transport) (s : conn T) : world T :=
  {| server := s; calls := [] |}.

(** ** The mutating commands as data *)

Section Dispatch.

Context (T : Transport).

(** A call of one of the ten methods that change the supervisor. *)
Inductive mutating_call : Type :=
| CallCreate (database_name : string)
| CallDestroy (database_name : string)
| CallLock (database_name : string)
| CallRelease (database_name : string)
| CallStart (database_name : string)
| CallStop (database_name : string)
| CallKill (database_name : string)
| CallSet (database_name property_ value : string)
| CallInherit (database_name property_ : string)
| CallRename (old new : string).

Definition invoke (self : Control) (c : mutating_call) : IO T bool :=
  match c with
  | CallCreate d => create T self d
  | CallDestroy d => destroy T self d
  | CallLock d => lock T self d
  | CallRelease d => release T self d
  | CallStart d => start T self d
  | CallStop d => stop T self d
  | CallKill d => kill T self d
  | CallSet d p v => set T self d p v
  | CallInherit d p => inherit T self d p
  | CallRename o n => rename T self o n
  end.

(** The database each call names and the command text it sends. *)
Definition target (c : mutating_call) : string :=
  match c with
  | CallCreate d | CallDestroy d | CallLock d | CallRelease d
  | CallStart d | CallStop d | CallKill d
  | CallSet d _ _ | CallInherit d _ => d
  | CallRename o _ => o
  end.

Definition command_text (c : mutating_call) : string :=
  match c with
  | CallCreate _ => "create"
  | CallDestroy _ => "destroy"
  | CallLock _ => "lock"
  | CallRelease _ => "release"
  | CallStart _ => "start"
  | CallStop _ => "stop"
  | CallKill _ => "kill"
  | CallSet _ p v => p ++ "=" ++ v
  | CallInherit _ p => p ++ "="
  | CallRename _ n => "name=" ++ n
  end.

End Dispatch.

(** * Vocabulary of the statements *)

(** A line with the tag, a version token and a field block. *)
Definition status_line (version rest : string) : string :=
  "sabdb:" ++ version ++ ":" ++ rest.

(** What [parse_statusline] does after the header, for version [v]. *)
Definition decode_rest (v : Z) (rest : string) : result sabdb_info :=
  match decode_fields v (Str.split "," rest) with
  | Return (info, _) => Return info
  | Raise e => Raise e
  end.

(** What may escape from the positional decoding: the exhaustion of the
    iterator, or the failure of a conversion. *)
Definition decode_error (e : exn) : Prop :=
  e = StopIteration \/ class_of e = ClsValueError
  \/ class_of e = ClsTimestampRange.

Definition raises_only {A} (P : exn -> Prop) (m : Decoder A) : Prop :=
  forall it e, m it = Raise e -> P e.

(** A line with or without the leading ["="]. *)
Definition marked (marker : bool) (line : string) : string :=
  if marker then String "=" line else line.

Definition example_body : string :=
  "mydb,/var/db/mydb,0,1,'sql',3,2,0,120,300,10,-1,1700000000,1700005000,1,0.0,0.0".

(** The exception classes of [monetdb.exceptions] that this file raises. *)
Definition module_error (e : exn) : Prop :=
  class_of e = ClsOperationalError \/ class_of e = ClsInterfaceError.

(** The failure of [line] differs in class from the failure
    that [isempty] reports for the server's [reply]. *)
Definition mismatch_distinguishable (line reply : string) : Prop :=
  exists e e',
    parse_statusline line = Raise e /\ isempty reply = Raise e'
    /\ class_of e <> class_of e'.


(** [sep.join(l)], the inverse of splitting when no element contains the
    separator. *)
Fixpoint join (sep : ascii) (l : list string) : string :=
  match l with
  | [] => ""
  | [t] => t
  | t :: l' => t ++ String sep (join sep l')
  end.




(** The database name [status] puts on the wire. *)
Definition status_target (database_name : pyvalue) : string :=
  if truthy database_name then str_of database_name else "#all".

Definition two_lines : string := example_line ++ newline ++ example_line.

(** A decoder that reads its tokens from the front only: tokens appended to
    the input are left over, untouched. *)
Definition extensible {A} (m : Decoder A) : Prop :=
  forall it a it1 more,
    m it = Return (a, it1) -> m (it ++ more)%list = Return (a, (it1 ++ more)%list).

(** A transport whose [connect] raises [e]. *)
Definition refusing (e : exn) : Transport :=
  {| conn := unit;
     t_connect := fun _ s => (Raise e, s);
     t_cmd := fun _ s => (Return "", s);
     t_disconnect := fun s => (Return tt, s) |}.

(** A key or a value of the dictionary of [get] that holds neither ["="] nor
    a line feed. *)
Definition plain_text (s : string) : Prop :=
  Str.contains "=" s = false /\ Str.contains lf s = false.

(** The line of [get] is skipped: it is a comment, or has no ["="], once the
    marker is dropped. *)
Definition skipped (line : string) : bool :=
  Str.startswith (strip_marker line) "#"
  || negb (Str.contains "=" (strip_marker line)).

Definition broken_listing : string :=
  example_line ++ newline ++ "sabdb:3:other" ++ newline ++ "not looked at".

(** A transport that works until [disconnect], which raises [e]. *)
Definition dropping (reply : string) (e : exn) : Transport :=
  {| conn := unit;
     t_connect := fun _ s => (Return tt, s);
     t_cmd := fun _ s => (Return reply, s);
     t_disconnect := fun s => (Raise e, s) |}.


(** * Properties *)

(** ** The built-ins on examples *)

Example init_default :
  fst (__init__ (answering "") "Linux" None 50000 None None
                (fresh (answering "") tt))
  = Return {| hostname := None; port := 50000; passphrase := None;
              unix_socket := "/tmp/.s.merovingian.50000" |}.
Proof. vm_compute. reflexivity. Qed.

Example init_windows :
  fst (__init__ (answering "") "Windows" None 50000 (Some "pw") (Some "")
                (fresh (answering "") tt))
  = Return {| hostname := Some "localhost"; port := 50000;
              passphrase := Some "pw";
              unix_socket := "/tmp/.s.merovingian.50000" |}.
Proof. vm_compute. reflexivity. Qed.

Example int_plain : Num.py_int "1700000000" = Return 1700000000.
Proof. reflexivity. Qed.
Example int_neg : Num.py_int " -1 " = Return (-1).
Proof. reflexivity. Qed.
Example int_us : Num.py_int "1_000" = Return 1000.
Proof. reflexivity. Qed.
Example int_bad : Num.py_int "1__0" = Raise (ValueError "1__0").
Proof. reflexivity. Qed.
Example int_empty : Num.py_int "" = Raise (ValueError "").
Proof. reflexivity. Qed.
Example int_digit_limit :
  Num.py_int (string_of_list_ascii (repeat "1"%char 4300))
  = Return ((10 ^ 4300 - 1) / 9)
  /\ Num.py_int (string_of_list_ascii (repeat "1"%char 4301))
     = Raise (ValueError (string_of_list_ascii (repeat "1"%char 4301))).
Proof. split; vm_compute; reflexivity. Qed.
Example float_zero : Num.py_float "0.0" = Return (S754_zero false).
Proof. reflexivity. Qed.
Example float_exp :
  Num.py_float "-1.5e3" = Return (S754_finite true 6597069766656000 (-42)).
Proof. vm_compute. reflexivity. Qed.
Example float_tenth :
  Num.py_float "0.1" = Return (S754_finite false 7205759403792794 (-56)).
Proof. vm_compute. reflexivity. Qed.
Example float_tie :
  Num.py_float "9007199254740993"
  = Return (S754_finite false 4503599627370496 1).
Proof. vm_compute. reflexivity. Qed.
Example float_overflow : Num.py_float "1e400" = Return (S754_infinity false).
Proof. vm_compute. reflexivity. Qed.
Example float_underflow : Num.py_float "-1e-400" = Return (S754_zero true).
Proof. vm_compute. reflexivity. Qed.
Example float_zeros : Num.py_float "0.00" = Num.py_float "0.0".
Proof. vm_compute. reflexivity. Qed.
Example int_separator :
  Num.py_int (String "028" "1") = Raise (ValueError (String "028" "1")).
Proof. reflexivity. Qed.
Example int_no_break_space : Num.py_int (String "160" "1") = Return 1.
Proof. reflexivity. Qed.
Example float_dot : Num.py_float "." = Raise (ValueError ".").
Proof. reflexivity. Qed.
Example float_inf : Num.py_float "-Infinity" = Return (S754_infinity true).
Proof. reflexivity. Qed.
Example split_quotes : Str.split "'" "'sql'" = [""; "sql"; ""].
Proof. reflexivity. Qed.
Example split_max2 : Str.split_max ":" "sabdb:2:a:b,c" 2 = ["sabdb"; "2"; "a:b,c"].
Proof. reflexivity. Qed.
Example split_max_short : Str.split_max ":" "sabdb:2" 2 = ["sabdb"; "2"].
Proof. reflexivity. Qed.

Example get_example :
  get_values ("name=foo" ++ newline ++ "#comment" ++ newline ++ "port=5000" ++ newline)
  = <["port" := "5000"]> (<["name" := "foo"]> ∅).
Proof. vm_compute. reflexivity. Qed.

(** ** Strings *)

Lemma prefix_empty (s : string) : String.prefix "" s = true.
Proof. destruct s; reflexivity. Qed.

Lemma startswith_cons (c d : ascii) (s : string) :
  Str.startswith (String c s) (String d "") = Ascii.eqb d c.
Proof.
  unfold Str.startswith. simpl.
  destruct (ascii_dec d c) as [->|Hne].
  - rewrite prefix_empty, Ascii.eqb_refl. reflexivity.
  - symmetry. apply Ascii.eqb_neq. exact Hne.
Qed.

Lemma strip_marker_marked (b : string) : strip_marker (String "=" b) = b.
Proof. unfold strip_marker. rewrite startswith_cons. reflexivity. Qed.

Lemma strip_marker_plain (b : string) :
  Str.startswith b "=" = false -> strip_marker b = b.
Proof. unfold strip_marker. intros ->. reflexivity. Qed.

Lemma split_max_one (sep : ascii) (v rest : string) :
  Str.contains sep v = false ->
  Str.split_max sep (v ++ String sep rest) 1 = [v; rest].
Proof.
  induction v as [|c v IH]; simpl; intros H.
  - rewrite Ascii.eqb_refl. destruct rest; reflexivity.
  - destruct (Ascii.eqb c sep); [discriminate|].
    rewrite (IH H). reflexivity.
Qed.

Lemma split_cons (sep : ascii) (v rest : string) :
  Str.contains sep v = false ->
  Str.split sep (v ++ String sep rest) = v :: Str.split sep rest.
Proof.
  induction v as [|c v IH]; simpl; intros H.
  - rewrite Ascii.eqb_refl. reflexivity.
  - destruct (Ascii.eqb c sep); [discriminate|].
    rewrite (IH H). reflexivity.
Qed.

Lemma split_without (sep : ascii) (s : string) :
  Str.contains sep s = false -> Str.split sep s = [s].
Proof.
  induction s as [|a s IH]; simpl; [reflexivity|].
  destruct (Ascii.eqb a sep); [discriminate|].
  intros H. rewrite (IH H). reflexivity.
Qed.

(** Splitting undoes joining, when no token contains the separator. *)
Lemma split_join (sep : ascii) (l : list string) :
  l <> [] ->
  Forall (fun t => Str.contains sep t = false) l ->
  Str.split sep (join sep l) = l.
Proof.
  intros Hne Hall. induction Hall as [|t l Ht Hall IH]; [contradiction|].
  destruct l as [|t' l'].
  - simpl. apply split_without, Ht.
  - change (join sep (t :: t' :: l'))
      with (t ++ String sep (join sep (t' :: l'))).
    rewrite (split_cons _ _ _ Ht), IH by discriminate. reflexivity.
Qed.

Lemma split_nonempty (sep : ascii) (s : string) : Str.split sep s <> [].
Proof.
  induction s as [|c s IH]; simpl; [discriminate|].
  destruct (Ascii.eqb c sep); [discriminate|].
  destruct (Str.split sep s); [contradiction|discriminate].
Qed.

Lemma split_contains_length (sep : ascii) (s : string) :
  Str.contains sep s = true -> (2 <= length (Str.split sep s))%nat.
Proof.
  induction s as [|c s IH]; simpl; [discriminate|].
  destruct (Ascii.eqb c sep).
  - intros _. pose proof (split_nonempty sep s).
    destruct (Str.split sep s); [contradiction|simpl; lia].
  - intros H. specialize (IH H).
    destruct (Str.split sep s); simpl in *; lia.
Qed.

(** ** The header of a status line *)

Lemma split_max_status_line (version rest : string) :
  Str.contains ":" version = false ->
  Str.split_max ":" (status_line version rest) 2 = ["sabdb"; version; rest].
Proof.
  intros H.
  assert (E : status_line version rest
              = String "s" (String "a" (String "b" (String "d" (String "b"
                  (String ":" (version ++ String ":" rest)))))))
    by reflexivity.
  rewrite E.
  change (Str.split_max ":" (String "s" (String "a" (String "b" (String "d"
           (String "b" (String ":" (version ++ String ":" rest))))))) 2)
    with (Str.push "s" (Str.push "a" (Str.push "b" (Str.push "d" (Str.push "b"
           ("" :: Str.split_max ":" (version ++ String ":" rest) 1)))))).
  rewrite (split_max_one _ _ _ H). reflexivity.
Qed.

Lemma parse_status_line (version rest : string) :
  Str.contains ":" version = false ->
  parse_statusline (status_line version rest) =
    if Str.mem version ["1"; "2"]
    then rbind (Num.py_int version) (fun v => decode_rest v rest)
    else Raise (InterfaceError "unsupported sabdb protocol").
Proof.
  intros H. unfold parse_statusline.
  assert (Hs : strip_marker (status_line version rest)
               = status_line version rest) by reflexivity.
  rewrite Hs.
  assert (Ht : Str.startswith (status_line version rest) "sabdb:" = true).
  { unfold Str.startswith, status_line. cbn. apply prefix_empty. }
  rewrite Ht, (split_max_status_line _ _ H). cbn [negb].
  destruct (Str.mem version ["1"; "2"]); reflexivity.
Qed.

Lemma mem_versions (version : string) :
  Str.mem version ["1"; "2"] = true <-> version = "1" \/ version = "2".
Proof.
  unfold Str.mem. cbn [existsb]. rewrite !orb_true_iff, !String.eqb_eq.
  intuition discriminate.
Qed.

(** ** Inversion of the decoder *)

Lemma dbind_Return {A B} (m : Decoder A) (k : A -> Decoder B) it b it2 :
  dbind m k it = Return (b, it2) ->
  exists a it1, m it = Return (a, it1) /\ k a it1 = Return (b, it2).
Proof.
  unfold dbind. destruct (m it) as [[a it1]|e]; [|discriminate].
  intros H. exists a, it1. split; [reflexivity|exact H].
Qed.

Lemma next_Return it tok it1 :
  next it = Return (tok, it1) -> it = tok :: it1.
Proof. destruct it; simpl; congruence. Qed.

Lemma dlift_Return {A} (r : result A) it a it1 :
  dlift r it = Return (a, it1) -> r = Return a /\ it1 = it.
Proof. unfold dlift. destruct r; [|discriminate]. intros [= -> ->]. auto. Qed.

Lemma dret_Return {A} (x : A) it a it1 :
  dret x it = Return (a, it1) -> a = x /\ it1 = it.
Proof. unfold dret. intros [= -> ->]. auto. Qed.

Lemma next_int_Return it z it1 :
  next_int it = Return (z, it1) ->
  exists tok, it = tok :: it1 /\ Num.py_int tok = Return z.
Proof.
  unfold next_int. intros H.
  apply dbind_Return in H as (tok & it' & Hn & Hl).
  apply next_Return in Hn. apply dlift_Return in Hl as [Hl ->].
  exists tok. auto.
Qed.

Lemma next_float_Return it f it1 :
  next_float it = Return (f, it1) ->
  exists tok, it = tok :: it1 /\ Num.py_float tok = Return f.
Proof.
  unfold next_float. intros H.
  apply dbind_Return in H as (tok & it' & Hn & Hl).
  apply next_Return in Hn. apply dlift_Return in Hl as [Hl ->].
  exists tok. auto.
Qed.

(** Inverts a chain of [let*] that returned, down to the tokens read. *)
Ltac invert_decoder :=
  repeat match goal with
    | H : dbind _ _ _ = Return _ |- _ =>
        apply dbind_Return in H as (? & ? & ? & H)
    | H : next _ = Return _ |- _ => apply next_Return in H; subst
    | H : next_int _ = Return _ |- _ =>
        apply next_int_Return in H as (? & ? & H); subst
    | H : next_float _ = Return _ |- _ =>
        apply next_float_Return in H as (? & ? & H); subst
    | H : dlift _ _ = Return _ |- _ =>
        apply dlift_Return in H as [H ?]; subst
    | H : dret _ _ = Return _ |- _ =>
        apply dret_Return in H as [? ?]; subst
    end.

Lemma version_tests :
  (2 =? 1) = false /\ (2 >? 1) = true /\ (1 =? 1) = true /\ (1 >? 1) = false.
Proof. repeat split. Qed.

(** The tokens of a version 2 line and the fields decoded from them. *)
Lemma decode_fields_2_inv toks info rest :
  decode_fields 2 toks = Return (info, rest) ->
  exists t_name t_path t_locked t_state t_scen t_start t_stop t_crash
         t_avg t_max t_min t_lcrash t_lstart t_lstop t_a1 t_a10 t_a30,
    toks = ([t_name; t_path; t_locked; t_state; t_scen; t_start; t_stop;
             t_crash; t_avg; t_max; t_min; t_lcrash; t_lstart; t_lstop;
             t_a1; t_a10; t_a30] ++ rest)%list
    /\ scenarios info = Str.split "'" t_scen
    /\ (exists z, Num.py_int t_lcrash = Return z
                  /\ decode_last_crash z = Return (last_crash info))
    /\ (exists z d, Num.py_int t_lstop = Return z
                    /\ decode_last_stop z = Return d
                    /\ last_stop info = Some d).
Proof.
  unfold decode_fields.
  destruct version_tests as (E1 & E2 & _). rewrite E1, E2. clear E1 E2.
  cbv iota. intros H. invert_decoder.
  repeat eexists; eauto.
Qed.

(** Conversely, seventeen tokens whose conversions succeed decode to the
    record of their values. *)
Lemma decode_fields_2_complete
      t_name t_path t_locked t_state t_scen t_start t_stop t_crash
      t_avg t_max t_min t_lcrash t_lstart t_lstop t_a1 t_a10 t_a30 rest
      st c1 c2 c3 u1 u2 u3 zc dc zs ds zp dp f10 f30 :
  Num.py_int t_state = Return st ->
  Num.py_int t_start = Return c1 ->
  Num.py_int t_stop = Return c2 ->
  Num.py_int t_crash = Return c3 ->
  Num.py_int t_avg = Return u1 ->
  Num.py_int t_max = Return u2 ->
  Num.py_int t_min = Return u3 ->
  Num.py_int t_lcrash = Return zc ->
  decode_last_crash zc = Return dc ->
  Num.py_int t_lstart = Return zs ->
  fromtimestamp zs = Return ds ->
  Num.py_int t_lstop = Return zp ->
  decode_last_stop zp = Return dp ->
  Num.py_float t_a10 = Return f10 ->
  Num.py_float t_a30 = Return f30 ->
  decode_fields 2 ([t_name; t_path; t_locked; t_state; t_scen; t_start;
                    t_stop; t_crash; t_avg; t_max; t_min; t_lcrash;
                    t_lstart; t_lstop; t_a1; t_a10; t_a30] ++ rest)%list
  = Return ({| name := t_name; path := t_path;
               locked := String.eqb t_locked "1"; state := st;
               scenarios := Str.split "'" t_scen;
               start_counter := c1; stop_counter := c2; crash_counter := c3;
               avg_uptime := u1; max_uptime := u2; min_uptime := u3;
               last_crash := dc; last_start := ds; last_stop := Some dp;
               crash_avg1 := String.eqb t_a1 "1";
               crash_avg10 := f10; crash_avg30 := f30 |}, rest).
Proof.
  intros H1 H2 H3 H4 H5 H6 H7 H8 H9 H10 H11 H12 H13 H14 H15.
  unfold decode_fields, next_int, next_float, dbind, next, dlift, dret.
  cbn [app].
  destruct version_tests as (E1 & E2 & _). rewrite E1, E2.
  rewrite H1, H2, H3, H4, H5, H6, H7, H8, H9, H10, H11, H12, H13, H14, H15.
  reflexivity.
Qed.

(** The same for version 1, whose sixth token is skipped and whose result has
    no ['last_stop']. *)
Lemma decode_fields_1_inv toks info rest :
  decode_fields 1 toks = Return (info, rest) ->
  exists t_name t_path t_locked t_state t_scen t_skip t_start t_stop t_crash
         t_avg t_max t_min t_lcrash t_lstart t_a1 t_a10 t_a30,
    toks = ([t_name; t_path; t_locked; t_state; t_scen; t_skip; t_start;
             t_stop; t_crash; t_avg; t_max; t_min; t_lcrash; t_lstart;
             t_a1; t_a10; t_a30] ++ rest)%list
    /\ scenarios info = Str.split "'" t_scen
    /\ (exists z, Num.py_int t_lcrash = Return z
                  /\ decode_last_crash z = Return (last_crash info))
    /\ last_stop info = None.
Proof.
  unfold decode_fields.
  destruct version_tests as (_ & _ & E1 & E2). rewrite E1, E2. clear E1 E2.
  cbv iota. intros H. invert_decoder.
  repeat eexists; eauto.
Qed.

(** ** The exceptions of the decoder *)

Lemma py_int_Raise s e : Num.py_int s = Raise e -> e = ValueError s.
Proof.
  unfold Num.py_int.
  destruct (match Str.strip s with
            | String "+" u => Num.unsigned_value u
            | String "-" u => option_map Z.opp (Num.unsigned_value u)
            | _ => Num.unsigned_value (Str.strip s)
            end); [discriminate|congruence].
Qed.

Lemma py_float_Raise s e : Num.py_float s = Raise e -> e = ValueError s.
Proof.
  unfold Num.py_float.
  match goal with |- match ?r with _ => _ end = _ -> _ => destruct r end;
    [discriminate|congruence].
Qed.

Lemma fromtimestamp_Raise t e :
  fromtimestamp t = Raise e -> e = TimestampRangeError t.
Proof. unfold fromtimestamp. destruct (representable t); congruence. Qed.

Lemma decode_last_crash_Raise z e :
  decode_last_crash z = Raise e -> e = TimestampRangeError z.
Proof.
  unfold decode_last_crash. destruct (z >=? 0); [|discriminate].
  destruct (fromtimestamp z) eqn:E; [discriminate|].
  apply fromtimestamp_Raise in E. simpl. congruence.
Qed.

Lemma decode_last_stop_Raise z e :
  decode_last_stop z = Raise e -> e = TimestampRangeError z.
Proof.
  unfold decode_last_stop. destruct (z >? -1); [|discriminate].
  destruct (fromtimestamp z) eqn:E; [discriminate|].
  apply fromtimestamp_Raise in E. simpl. congruence.
Qed.

Section RaisesOnly.

Context (P : exn -> Prop).

Lemma raises_only_bind {A B} (m : Decoder A) (k : A -> Decoder B) :
  raises_only P m -> (forall a, raises_only P (k a)) ->
  raises_only P (dbind m k).
Proof.
  intros Hm Hk it e. unfold dbind.
  destruct (m it) as [[a it1]|e1] eqn:E.
  - apply Hk.
  - intros [= <-]. exact (Hm _ _ E).
Qed.

Lemma raises_only_ret {A} (a : A) : raises_only P (dret a).
Proof. intros it e. discriminate. Qed.

Lemma raises_only_lift {A} (r : result A) :
  (forall e, r = Raise e -> P e) -> raises_only P (dlift r).
Proof.
  intros H it e. unfold dlift. destruct r; [discriminate|].
  intros [= <-]. apply H. reflexivity.
Qed.

Lemma raises_only_next : P StopIteration -> raises_only P next.
Proof. intros H [|t it] e; simpl; [intros [= <-]; exact H|discriminate]. Qed.

End RaisesOnly.

Lemma decode_error_value s : decode_error (ValueError s).
Proof. right; left; reflexivity. Qed.

Lemma decode_error_range t : decode_error (TimestampRangeError t).
Proof. right; right; reflexivity. Qed.

Lemma next_raises : raises_only decode_error next.
Proof. apply raises_only_next. left; reflexivity. Qed.

Lemma next_int_raises : raises_only decode_error next_int.
Proof.
  apply raises_only_bind; [apply next_raises|]. intros tok.
  apply raises_only_lift. intros e ->%py_int_Raise. apply decode_error_value.
Qed.

Lemma next_float_raises : raises_only decode_error next_float.
Proof.
  apply raises_only_bind; [apply next_raises|]. intros tok.
  apply raises_only_lift. intros e ->%py_float_Raise. apply decode_error_value.
Qed.

Lemma decode_fields_raises (v : Z) : raises_only decode_error (decode_fields v).
Proof.
  unfold decode_fields.
  destruct (v =? 1), (v >? 1);
    repeat first
      [ apply raises_only_ret
      | apply next_raises | apply next_int_raises | apply next_float_raises
      | apply raises_only_lift; intros e He;
        first [ apply decode_last_crash_Raise in He
              | apply decode_last_stop_Raise in He
              | apply fromtimestamp_Raise in He ];
        subst e; apply decode_error_range
      | apply raises_only_bind; [|intros ?] ].
Qed.

Lemma decode_rest_Raise v rest e :
  decode_rest v rest = Raise e -> decode_error e.
Proof.
  unfold decode_rest.
  destruct (decode_fields v (Str.split "," rest)) as [[i r]|e1] eqn:E;
    [discriminate|].
  intros [= <-]. exact (decode_fields_raises _ _ _ E).
Qed.

(** A decoded line has at least seventeen tokens, under either version. *)
Lemma decode_rest_Return_length v rest info :
  v = 1 \/ v = 2 ->
  decode_rest v rest = Return info ->
  (17 <= length (Str.split "," rest))%nat.
Proof.
  unfold decode_rest. intros Hv.
  destruct (decode_fields v (Str.split "," rest)) as [[i r]|e1] eqn:E;
    [|discriminate].
  intros _. destruct Hv as [-> | ->].
  - apply decode_fields_1_inv in E
      as (? & ? & ? & ? & ? & ? & ? & ? & ? & ? & ? & ? & ? & ? & ? & ? & ?
          & -> & _).
    rewrite length_app. simpl. lia.
  - apply decode_fields_2_inv in E
      as (? & ? & ? & ? & ? & ? & ? & ? & ? & ? & ? & ? & ? & ? & ? & ? & ?
          & -> & _).
    rewrite length_app. simpl. lia.
Qed.

(** ** What a decoded line looks like *)

Lemma py_int_1 : Num.py_int "1" = Return 1.
Proof. reflexivity. Qed.

Lemma py_int_2 : Num.py_int "2" = Return 2.
Proof. reflexivity. Qed.

(** After the tag test, [parse_statusline] only depends on the three parts of
    the line. *)
Lemma parse_statusline_parts line code version rest :
  Str.startswith (strip_marker line) "sabdb:" = true ->
  Str.split_max ":" (strip_marker line) 2 = [code; version; rest] ->
  parse_statusline line =
    if Str.mem version ["1"; "2"]
    then rbind (Num.py_int version) (fun v => decode_rest v rest)
    else Raise (InterfaceError "unsupported sabdb protocol").
Proof.
  intros Ht Hs. unfold parse_statusline. rewrite Ht, Hs. cbn [negb].
  destruct (Str.mem version ["1"; "2"]); reflexivity.
Qed.

(** A line that decodes has the tag, version ["1"] or ["2"], and a field
    block that the positional decoder accepts. *)
Lemma parse_statusline_Return line info :
  parse_statusline line = Return info ->
  exists code version rest v,
    Str.startswith (strip_marker line) "sabdb:" = true
    /\ Str.split_max ":" (strip_marker line) 2 = [code; version; rest]
    /\ (version = "1" /\ v = 1 \/ version = "2" /\ v = 2)
    /\ decode_rest v rest = Return info.
Proof.
  unfold parse_statusline.
  destruct (Str.startswith (strip_marker line) "sabdb:") eqn:Ht;
    [|discriminate].
  cbn [negb].
  destruct (Str.split_max ":" (strip_marker line) 2)
    as [|code [|version [|rest [|? ?]]]] eqn:Hs; try discriminate.
  destruct (Str.mem version ["1"; "2"]) eqn:Hm; [|discriminate].
  cbn [negb]. apply mem_versions in Hm as [-> | ->].
  - rewrite py_int_1. cbn [rbind]. intros H.
    exists code, "1", rest, 1. auto 10.
  - rewrite py_int_2. cbn [rbind]. intros H.
    exists code, "2", rest, 2. auto 10.
Qed.



Lemma fromtimestamp_representable t :
  representable t = true -> fromtimestamp t = Return (local_datetime t).
Proof. unfold fromtimestamp. intros ->. reflexivity. Qed.




Lemma decode_last_stop_nonneg z :
  0 <= z ->
  decode_last_stop z = rbind (fromtimestamp z) (fun d => Return (Some d)).
Proof.
  intros H. unfold decode_last_stop.
  destruct (Z.gtb_spec z (-1)); [reflexivity|lia].
Qed.


Lemma decode_last_stop_converts z :
  0 <= z -> representable z = true ->
  decode_last_stop z = Return (Some (local_datetime z)).
Proof.
  intros H0 Hr.
  rewrite (decode_last_stop_nonneg _ H0), (fromtimestamp_representable _ Hr).
  reflexivity.
Qed.





(** ** The range of [fromtimestamp] *)

Lemma utcoffset_range u : -86400 < utcoffset tz u < 86400.
Proof.
  pose proof (utcoffset_bounded tz u) as H.
  apply Z.ltb_lt in H. lia.
Qed.

Lemma in_years_iff s : in_years s = true <-> min_wall <= s <= max_wall.
Proof. unfold in_years. rewrite andb_true_iff, !Z.leb_le. tauto. Qed.

(** In every zone, the instants from the fourth day of the year 1 to the
    last but one day of the year 9999 convert. *)
Lemma representable_safe t :
  min_wall + 259200 <= t <= max_wall - 86400 -> representable t = true.
Proof.
  intros Ht. unfold representable, transition, wall_clock, max_fold_seconds.
  pose proof (utcoffset_range t) as H1.
  pose proof (utcoffset_range (t - 86400)) as H2.
  pose proof (utcoffset_range
                (t + (t + utcoffset tz t - (t - 86400 + utcoffset tz (t - 86400))
                      - 86400))) as H3.
  unfold min_wall, max_wall in Ht.
  assert (Hf : fits_time_t t = true).
  { unfold fits_time_t. change (2 ^ 63) with 9223372036854775808.
    apply andb_true_iff. rewrite Z.leb_le, Z.ltb_lt. lia. }
  rewrite Hf. cbn [andb].
  rewrite !andb_true_iff. repeat split.
  - apply in_years_iff. unfold min_wall, max_wall. lia.
  - apply in_years_iff. unfold min_wall, max_wall. lia.
  - destruct (Z.ltb_spec
                (t + utcoffset tz t - (t - 86400 + utcoffset tz (t - 86400))
                 - 86400) 0); [|reflexivity].
    apply in_years_iff. unfold min_wall, max_wall. lia.
Qed.


Lemma representable_2023 : representable 1700000000 = true.
Proof. apply representable_safe. unfold min_wall, max_wall. lia. Qed.

(** The example line decodes in every zone. *)
Lemma parse_example : parse_statusline example_line = Return example_info.
Proof.
  change example_line with (status_line "2" example_body).
  rewrite parse_status_line by reflexivity.
  change (Str.mem "2" ["1"; "2"]) with true. cbv iota.
  rewrite py_int_2. cbn [rbind]. unfold decode_rest.
  assert (Hs : Str.split "," example_body
               = (["mydb"; "/var/db/mydb"; "0"; "1"; "'sql'"; "3"; "2"; "0";
                   "120"; "300"; "10"; "-1"; "1700000000"; "1700005000";
                   "1"; "0.0"; "0.0"] ++ [])%list) by reflexivity.
  rewrite Hs.
  erewrite decode_fields_2_complete; [reflexivity | ..];
    first [ apply fromtimestamp_representable, representable_2023
          | apply decode_last_stop_converts;
            [lia|apply representable_safe; unfold min_wall, max_wall; lia]
          | reflexivity ].
Qed.

(** ** The continuation marker *)

Lemma parse_statusline_marker (b : string) :
  Str.startswith b "=" = false ->
  parse_statusline (String "=" b) = parse_statusline b.
Proof.
  intros H. unfold parse_statusline.
  rewrite strip_marker_marked, (strip_marker_plain _ H). reflexivity.
Qed.

Lemma parse_statusline_marked (marker : bool) (version rest : string) :
  parse_statusline (marked marker (status_line version rest))
  = parse_statusline (status_line version rest).
Proof.
  destruct marker; [|reflexivity]. apply parse_statusline_marker.
  reflexivity.
Qed.

(** C8 (amended): for every body [b] that does not itself begin with the
    continuation marker, parsing ["=" ++ b] and parsing [b] give the same
    result, record or exception. *)
Theorem marker_is_optional (b : string) :
  Str.startswith b "=" = false ->
  parse_statusline ("=" ++ b) = parse_statusline b.
Proof. intros H. exact (parse_statusline_marker b H). Qed.

(** ** The tag *)

Lemma isempty_nonempty (reply : string) :
  reply <> "" -> isempty reply = Raise (OperationalError reply).
Proof.
  intros H. unfold isempty.
  destruct (String.eqb_spec reply ""); [contradiction|reflexivity].
Qed.

(** C5 (amended): every line that does not begin with the tag ["sabdb:"],
    after the optional marker is dropped, raises [OperationalError] with the
    fixed message ['wrong result recieved']; this is the class that a
    server-reported failure is raised with, so the two differ by message
    only. *)
Theorem missing_tag_raises (line : string) :
  Str.startswith (strip_marker line) "sabdb:" = false ->
  parse_statusline line = Raise (OperationalError "wrong result recieved")
  /\ forall reply, reply <> "" ->
       exists e, isempty reply = Raise e
                 /\ class_of e = ClsOperationalError.
Proof.
  intros H. split.
  - unfold parse_statusline. rewrite H. reflexivity.
  - intros reply Hr. exists (OperationalError reply).
    split; [apply (isempty_nonempty _ Hr)|reflexivity].
Qed.

(** ** The version token *)

Lemma not_interface_error (e : exn) (msg : string) :
  decode_error e -> e <> InterfaceError msg.
Proof. intros H ->. destruct H as [H | [H | H]]; discriminate H. Qed.

(** C6 (amended): the version token is compared as text.  A line with the tag
    fails with [InterfaceError('unsupported sabdb protocol')] exactly when
    its version token is neither ["1"] nor ["2"]; a token such as ["02"],
    which [int] would read as 2, is rejected as well. *)
Theorem version_is_checked_as_text (marker : bool) (version rest : string) :
  Str.contains ":" version = false ->
  parse_statusline (marked marker (status_line version rest))
    = Raise (InterfaceError "unsupported sabdb protocol")
  <-> ~ (version = "1" \/ version = "2").
Proof.
  intros Hc. rewrite parse_statusline_marked, (parse_status_line _ _ Hc).
  destruct (Str.mem version ["1"; "2"]) eqn:Hm.
  - split; [|intros Hn; apply mem_versions in Hm; contradiction].
    intros H Hv. clear Hv.
    destruct (Num.py_int version) as [v|e] eqn:Hi; cbn [rbind] in H.
    + apply decode_rest_Raise in H.
      exact (not_interface_error _ _ H eq_refl).
    + apply py_int_Raise in Hi. congruence.
  - split; [|reflexivity]. intros _ Hv. apply mem_versions in Hv. congruence.
Qed.

(** ** Running out of tokens *)

(** C4 (amended): a line with the tag and version ["1"] or ["2"] whose field
    block has fewer than the seventeen tokens the version requires never
    yields a record.  It raises [StopIteration], from [next] on the exhausted
    iterator, or the error of the conversion of an earlier token. *)
Theorem short_line_raises (marker : bool) (version rest : string) :
  version = "1" \/ version = "2" ->
  (length (Str.split "," rest) < 17)%nat ->
  exists e,
    parse_statusline (marked marker (status_line version rest)) = Raise e
    /\ decode_error e.
Proof.
  intros Hv Hlen. rewrite parse_statusline_marked.
  assert (Hc : Str.contains ":" version = false)
    by (destruct Hv as [-> | ->]; reflexivity).
  rewrite (parse_status_line _ _ Hc).
  assert (Hm : Str.mem version ["1"; "2"] = true) by (apply mem_versions, Hv).
  rewrite Hm.
  assert (Hi : exists v, Num.py_int version = Return v /\ (v = 1 \/ v = 2)).
  { destruct Hv as [-> | ->]; [exists 1 | exists 2]; auto. }
  destruct Hi as (v & -> & Hv'). cbn [rbind].
  destruct (decode_rest v rest) as [info|e] eqn:E.
  - apply (decode_rest_Return_length _ _ _ Hv') in E. lia.
  - exists e. split; [reflexivity|]. exact (decode_rest_Raise _ _ _ E).
Qed.

(** ** The scenarios *)

Lemma decode_rest_scenarios v rest info :
  v = 1 \/ v = 2 ->
  decode_rest v rest = Return info ->
  scenarios info = Str.split "'" (nth 4 (Str.split "," rest) "").
Proof.
  unfold decode_rest. intros Hv.
  destruct (decode_fields v (Str.split "," rest)) as [[i r]|e1] eqn:E;
    [|discriminate].
  intros [= <-]. destruct Hv as [-> | ->].
  - apply decode_fields_1_inv in E
      as (? & ? & ? & ? & ? & ? & ? & ? & ? & ? & ? & ? & ? & ? & ? & ? & ?
          & -> & -> & _).
    reflexivity.
  - apply decode_fields_2_inv in E
      as (? & ? & ? & ? & ? & ? & ? & ? & ? & ? & ? & ? & ? & ? & ? & ? & ?
          & -> & -> & _).
    reflexivity.
Qed.

(** C2 (amended): for every status line that decodes, the scenarios are the
    ordered list of the pieces of the fifth token between apostrophes, empty
    pieces included.  The example line yields [scenarios = ['', 'sql', '']],
    with [locked = False], [state = 1], [start_counter = 3],
    [last_crash = None], [last_start] decoded from 1700000000, [last_stop]
    decoded from 1700005000 and [crash_avg1 = True]. *)
Theorem scenarios_are_split (line : string) (info : sabdb_info) :
  parse_statusline line = Return info ->
  (exists code version rest,
      Str.split_max ":" (strip_marker line) 2 = [code; version; rest]
      /\ scenarios info = Str.split "'" (nth 4 (Str.split "," rest) ""))
  /\ (line = example_line ->
      scenarios info = [""; "sql"; ""]
      /\ locked info = false /\ state info = 1 /\ start_counter info = 3
      /\ last_crash info = None
      /\ fromtimestamp 1700000000 = Return (last_start info)
      /\ (exists d, fromtimestamp 1700005000 = Return d
                    /\ last_stop info = Some (Some d))
      /\ crash_avg1 info = true).
Proof.
  intros H. split.
  - apply parse_statusline_Return in H
      as (code & version & rest & v & _ & Hs & Hv & Hd).
    exists code, version, rest. split; [exact Hs|].
    apply (decode_rest_scenarios v); [|exact Hd].
    destruct Hv as [[_ ->] | [_ ->]]; auto.
  - intros ->. rewrite parse_example in H. injection H as <-.
    cbn [scenarios locked state start_counter last_crash last_start
         last_stop crash_avg1 example_info].
    repeat split.
    + apply fromtimestamp_representable, representable_2023.
    + eexists. split; [|reflexivity].
      apply fromtimestamp_representable, representable_safe.
      unfold min_wall, max_wall. lia.
Qed.

(** ** The timestamps *)








(** ** One command, one connection *)

Section Commands.

Context (T : Transport).

(** The run of [_send_command] when connecting succeeds, whatever [cmd] and
    [disconnect] do. *)
Lemma send_command_run (self : Control) (database_name command : string)
      (w : world T) s1 rq s2 rd s3 :
  t_connect T (control_args self) (server w) = (Return tt, s1) ->
  t_cmd T (request_line database_name command) s1 = (rq, s2) ->
  t_disconnect T s2 = (rd, s3) ->
  _send_command T self database_name command w =
    (match rd with Raise e => Raise e | Return _ => rq end,
     {| server := s3;
        calls := calls w ++ [CallConnect (control_args self);
                             CallCmd (request_line database_name command);
                             CallDisconnect] |}).
Proof.
  intros Hc Hq Hd.
  unfold _send_command, io_bind, try_finally, server_connect, server_cmd,
    server_disconnect.
  rewrite Hc. cbn [server calls]. rewrite Hq. cbn [server calls].
  rewrite Hd. rewrite <- !app_assoc. cbn [app].
  destruct rd; reflexivity.
Qed.

(** The run of [_send_command] when connecting fails. *)
Lemma send_command_refused (self : Control) (database_name command : string)
      (w : world T) e s1 :
  t_connect T (control_args self) (server w) = (Raise e, s1) ->
  _send_command T self database_name command w =
    (Raise e,
     {| server := s1;
        calls := calls w ++ [CallConnect (control_args self)] |}).
Proof.
  intros Hc. unfold _send_command, io_bind, server_connect.
  rewrite Hc. reflexivity.
Qed.

(** C9: whenever [_send_command] has opened its connection, it calls
    [disconnect] exactly once, after [cmd], before it returns or lets an
    exception out: the calls made are [connect], [cmd], [disconnect] both
    when [cmd] returns the reply and when it raises.  The outcome is that
    of [cmd], unless [disconnect] itself raises. *)
Theorem send_command_always_disconnects
        (self : Control) (database_name command : string)
        (w : world T) s1 (rq : result string) s2 (rd : result unit) s3 :
  t_connect T (control_args self) (server w) = (Return tt, s1) ->
  t_cmd T (request_line database_name command) s1 = (rq, s2) ->
  t_disconnect T s2 = (rd, s3) ->
  let '(r, w') := _send_command T self database_name command w in
  calls w' = (calls w ++ [CallConnect (control_args self);
                          CallCmd (request_line database_name command);
                          CallDisconnect])%list
  /\ server w' = s3
  /\ r = match rd with Raise e => Raise e | Return _ => rq end.
Proof.
  intros Hc Hq Hd. rewrite (send_command_run _ _ _ _ _ _ _ _ _ Hc Hq Hd).
  repeat split.
Qed.

(** ** The mutating commands *)

Lemma invoke_unfold (self : Control) (c : mutating_call) :
  invoke T self c =
    io_bind (_send_command T self (target c) (command_text c))
            (fun r => io_lift (isempty r)).
Proof. destruct c; reflexivity. Qed.

(** A mutating call whose connection worked returns [isempty] of the
    reply. *)
Lemma invoke_reply (self : Control) (c : mutating_call) (w : world T)
      s1 reply s2 s3 :
  t_connect T (control_args self) (server w) = (Return tt, s1) ->
  t_cmd T (request_line (target c) (command_text c)) s1
    = (Return reply, s2) ->
  t_disconnect T s2 = (Return tt, s3) ->
  fst (invoke T self c w) = isempty reply.
Proof.
  intros Hc Hq Hd. rewrite invoke_unfold. unfold io_bind.
  rewrite (send_command_run _ _ _ _ _ _ _ _ _ Hc Hq Hd).
  reflexivity.
Qed.

(** C1: for each of the ten mutating commands, when the transport hands
    back the reply, an empty reply makes the call return [True] and a
    non-empty reply makes it raise [OperationalError] with the reply as its
    message, unchanged. *)
Theorem mutating_reply (self : Control) (c : mutating_call) (w : world T)
        s1 reply s2 s3 :
  t_connect T (control_args self) (server w) = (Return tt, s1) ->
  t_cmd T (request_line (target c) (command_text c)) s1
    = (Return reply, s2) ->
  t_disconnect T s2 = (Return tt, s3) ->
  (reply = "" -> fst (invoke T self c w) = Return true)
  /\ (reply <> "" ->
      fst (invoke T self c w) = Raise (OperationalError reply)).
Proof.
  intros Hc Hq Hd. rewrite (invoke_reply _ _ _ _ _ _ _ Hc Hq Hd).
  split.
  - intros ->. reflexivity.
  - apply isempty_nonempty.
Qed.

End Commands.

Lemma mutating_reply_witness :
  fst (invoke (answering "") local_control (CallCreate "demo")
              (fresh (answering "") tt)) = Return true
  /\ fst (invoke (answering "database already exists") local_control
                 (CallRename "demo" "prod")
                 (fresh (answering "database already exists") tt))
     = Raise (OperationalError "database already exists").
Proof.
  split.
  - apply (mutating_reply (answering "") local_control (CallCreate "demo")
             (fresh (answering "") tt) tt "" tt tt);
      reflexivity.
  - apply (mutating_reply (answering "database already exists") local_control
             (CallRename "demo" "prod")
             (fresh (answering "database already exists") tt)
             tt "database already exists" tt tt);
      [reflexivity | reflexivity | reflexivity | discriminate].
Defined.

Lemma send_command_always_disconnects_witness :
  let T := failing (OtherError "socket.error" "broken pipe") in
  let '(r, w') :=
    _send_command T local_control "demo" "start" (fresh T tt) in
  calls w' = [CallConnect (control_args local_control);
              CallCmd (request_line "demo" "start");
              CallDisconnect]
  /\ server w' = tt
  /\ r = Raise (OtherError "socket.error" "broken pipe").
Proof.
  cbv zeta.
  apply (send_command_always_disconnects
           (failing (OtherError "socket.error" "broken pipe"))
           local_control "demo" "start"
           (fresh (failing (OtherError "socket.error" "broken pipe")) tt)
           tt (Raise (OtherError "socket.error" "broken pipe")) tt
           (Return tt) tt);
    reflexivity.
Defined.

(** ** [status] *)

Lemma parse_lines_Forall2 (lines : list string) (infos : list sabdb_info) :
  parse_lines lines = Return infos ->
  Forall2 (fun line info => parse_statusline line = Return info) lines infos.
Proof.
  revert infos. induction lines as [|line lines IH]; intros infos; simpl.
  - intros [= <-]. constructor.
  - destruct (parse_statusline line) as [info|e] eqn:E; [|discriminate].
    cbn [rbind]. destruct (parse_lines lines) as [rest|e]; [|discriminate].
    cbn [rbind]. intros [= <-]. constructor; [exact E|]. apply IH.
    reflexivity.
Qed.

Lemma parse_lines_iff (lines : list string) (infos : list sabdb_info) :
  parse_lines lines = Return infos <->
  Forall2 (fun line info => parse_statusline line = Return info) lines infos.
Proof.
  split; [apply parse_lines_Forall2|].
  induction 1 as [|line info lines infos Hl _ IH]; simpl; [reflexivity|].
  rewrite Hl, IH. reflexivity.
Qed.

Lemma falsy_values (v : pyvalue) :
  truthy v = false <->
  v = PyNone \/ v = PyBool false \/ v = PyStr ""
  \/ exists text, v = PyObject false text.
Proof.
  destruct v as [|[|]|s|[|] text]; simpl.
  - tauto.
  - split; [discriminate|].
    intros [H|[H|[H|[t H]]]]; discriminate H.
  - tauto.
  - destruct (String.eqb_spec s "") as [->|Hne]; simpl.
    + tauto.
    + split; [discriminate|].
      intros [H|[H|[H|[t H]]]]; try discriminate H. congruence.
  - split; [discriminate|].
    intros [H|[H|[H|[t H]]]]; discriminate H.
  - split; [|reflexivity]. intros _. right. right. right. exists text.
    reflexivity.
Qed.

Lemma status_run (T : Transport) (self : Control) (database_name : pyvalue)
      (w : world T) s1 raw s2 s3 :
  t_connect T (control_args self) (server w) = (Return tt, s1) ->
  t_cmd T (request_line (status_target database_name) "status") s1
    = (Return raw, s2) ->
  t_disconnect T s2 = (Return tt, s3) ->
  status T self database_name w =
    (if truthy database_name
     then rbind (parse_statusline raw) (fun info => Return (OneStatus info))
     else rbind (parse_lines (Str.split lf raw))
                (fun infos => Return (AllStatus infos)),
     {| server := s3;
        calls := calls w ++
                 [CallConnect (control_args self);
                  CallCmd (request_line (status_target database_name) "status");
                  CallDisconnect] |}).
Proof.
  unfold status, status_target. intros Hc Hq Hd.
  destruct (truthy database_name); unfold io_bind;
    rewrite (send_command_run _ _ _ _ _ _ _ _ _ _ Hc Hq Hd); reflexivity.
Qed.

(** C10: [status] branches on the truth value of [database_name].  For every
    false argument, that is [None], [False], the empty string and every
    other object that tests false, the line sent is ["#all status"] with its
    line feed, and the call returns the list of the records of the lines of
    the reply, one for each line between line feeds, when they all decode;
    it never returns a single record.  For every other argument the line
    sent is the text of the argument, a space, ["status"] and the line feed,
    and the call returns the one record of the reply, never a list. *)
Theorem status_by_truthiness (T : Transport) (self : Control)
        (database_name : pyvalue) (w : world T) s1 (request raw : string)
        s2 s3 :
  t_connect T (control_args self) (server w) = (Return tt, s1) ->
  t_cmd T request s1 = (Return raw, s2) ->
  t_disconnect T s2 = (Return tt, s3) ->
  (truthy database_name = false <->
   database_name = PyNone \/ database_name = PyBool false
   \/ database_name = PyStr ""
   \/ exists text, database_name = PyObject false text)
  /\ (truthy database_name = false ->
      request = "#all status" ++ String "010" "" ->
      calls (snd (status T self database_name w))
      = (calls w ++ [CallConnect (control_args self);
                     CallCmd ("#all status" ++ String "010" "");
                     CallDisconnect])%list
      /\ fst (status T self database_name w)
         = rbind (parse_lines (Str.split "010" raw))
                 (fun infos => Return (AllStatus infos))
      /\ (forall infos,
             fst (status T self database_name w) = Return (AllStatus infos)
             <-> Forall2 (fun line info => parse_statusline line = Return info)
                         (Str.split "010" raw) infos)
      /\ (forall info,
             fst (status T self database_name w) <> Return (OneStatus info)))
  /\ (truthy database_name = true ->
      forall name,
        database_name = PyStr name \/ database_name = PyObject true name
        \/ (database_name = PyBool true /\ name = "True") ->
        request = name ++ " status" ++ String "010" "" ->
        calls (snd (status T self database_name w))
        = (calls w ++ [CallConnect (control_args self);
                       CallCmd (name ++ " status" ++ String "010" "");
                       CallDisconnect])%list
        /\ fst (status T self database_name w)
           = rbind (parse_statusline raw)
                   (fun info => Return (OneStatus info))
        /\ (forall info,
               fst (status T self database_name w) = Return (OneStatus info)
               <-> parse_statusline raw = Return info)
        /\ (forall infos,
               fst (status T self database_name w)
               <> Return (AllStatus infos))).
Proof.
  intros Hc Hq Hd. split; [apply falsy_values|]. split.
  - intros Ht ->.
    assert (Hq' : t_cmd T (request_line (status_target database_name)
                             "status") s1 = (Return raw, s2))
      by (unfold status_target; rewrite Ht; exact Hq).
    rewrite (status_run _ _ _ _ _ _ _ _ Hc Hq' Hd), Ht.
    cbn [fst snd calls]. unfold status_target. rewrite Ht.
    split; [reflexivity|]. split; [reflexivity|]. split.
    + intros infos. change (Str.split "010" raw) with (Str.split lf raw).
      rewrite <- parse_lines_iff.
      destruct (parse_lines (Str.split lf raw)) as [l|e]; cbn [rbind];
        split; congruence.
    + intros info.
      destruct (parse_lines (Str.split lf raw)) as [l|e]; cbn [rbind];
        discriminate.
  - intros Ht name Hname ->.
    assert (Hs : str_of database_name = name)
      by (destruct Hname as [->|[->|[-> ->]]]; reflexivity).
    assert (Hq' : t_cmd T (request_line (status_target database_name)
                             "status") s1 = (Return raw, s2))
      by (unfold status_target; rewrite Ht, Hs; exact Hq).
    rewrite (status_run _ _ _ _ _ _ _ _ Hc Hq' Hd), Ht.
    cbn [fst snd calls]. unfold status_target. rewrite Ht, Hs.
    split; [reflexivity|]. split; [reflexivity|]. split.
    + intros info.
      destruct (parse_statusline raw) as [i|e]; cbn [rbind];
        split; congruence.
    + intros infos.
      destruct (parse_statusline raw) as [i|e]; cbn [rbind]; discriminate.
Qed.

(** ** [get] *)

Lemma contains_app (c : ascii) (s t : string) :
  Str.contains c (s ++ String c t) = true.
Proof.
  induction s as [|a s IH]; simpl.
  - rewrite Ascii.eqb_refl. reflexivity.
  - destruct (Ascii.eqb a c); [reflexivity|exact IH].
Qed.

(** A comment line leaves the dictionary as it is, with or without the
    continuation marker in front. *)
Lemma get_step_comment (values : gmap string string) (marker : bool)
      (text : string) :
  get_step values (marked marker (String "#" text)) = values.
Proof.
  unfold get_step. destruct marker; cbn [marked].
  - rewrite startswith_cons. cbn [Ascii.eqb Bool.eqb Str.tail].
    rewrite startswith_cons. reflexivity.
  - rewrite startswith_cons. cbn [Ascii.eqb Bool.eqb].
    rewrite startswith_cons. reflexivity.
Qed.

(** A line that starts with neither marker is split when it has an ["="]. *)
Lemma get_step_plain (values : gmap string string) (c : ascii) (s : string) :
  Ascii.eqb c "=" = false -> Ascii.eqb c "#" = false ->
  get_step values (String c s) =
    if Str.contains "=" (String c s)
    then <[nth 0 (Str.split "=" (String c s)) ""
           := nth 1 (Str.split "=" (String c s)) ""]> values
    else values.
Proof.
  intros Hc Hh. unfold get_step.
  rewrite startswith_cons, (Ascii.eqb_sym "="), Hc.
  rewrite startswith_cons, (Ascii.eqb_sym "#"), Hh.
  reflexivity.
Qed.

(** A line [key=value] binds the key, replacing an earlier binding. *)
Lemma get_step_pair (values : gmap string string) (c : ascii)
      (key value : string) :
  Ascii.eqb c "=" = false -> Ascii.eqb c "#" = false ->
  Str.contains "=" key = false -> Str.contains "=" value = false ->
  get_step values (String c key ++ "=" ++ value)
  = <[String c key := value]> values.
Proof.
  intros Hc Hh Hk Hv.
  assert (Hck : Str.contains "=" (String c key) = false)
    by (simpl; rewrite Hc; exact Hk).
  change (String c key ++ "=" ++ value)
    with (String c (key ++ String "=" value)).
  rewrite (get_step_plain _ _ _ Hc Hh).
  change (String c (key ++ String "=" value))
    with (String c key ++ String "=" value).
  rewrite contains_app, (split_cons _ _ _ Hck), (split_without _ _ Hv).
  reflexivity.
Qed.

(** A value that itself contains ["="] is cut at that character: the line is
    split at every ["="] and only the second piece is kept. *)
Lemma get_step_cut (values : gmap string string) (c : ascii)
      (key value tail : string) :
  Ascii.eqb c "=" = false -> Ascii.eqb c "#" = false ->
  Str.contains "=" key = false -> Str.contains "=" value = false ->
  get_step values (String c key ++ "=" ++ value ++ "=" ++ tail)
  = <[String c key := value]> values.
Proof.
  intros Hc Hh Hk Hv.
  assert (Hck : Str.contains "=" (String c key) = false)
    by (simpl; rewrite Hc; exact Hk).
  change (String c key ++ "=" ++ value ++ "=" ++ tail)
    with (String c (key ++ String "=" (value ++ String "=" tail))).
  rewrite (get_step_plain _ _ _ Hc Hh).
  change (String c (key ++ String "=" (value ++ String "=" tail)))
    with (String c key ++ String "=" (value ++ String "=" tail)).
  rewrite contains_app, (split_cons _ _ _ Hck), (split_cons _ _ _ Hv).
  reflexivity.
Qed.

Lemma get_last_wins :
  get_values ("port=5000" ++ newline ++ "=port=6000") !! "port"
  = Some "6000".
Proof. vm_compute. reflexivity. Qed.

(** C3: on the reply ["name=foo=bar"] the code does not keep the value whole.
    [get] returns [{'name': 'foo'}]: the line is split at every ["="] and the
    text after the second one is dropped.  (The rest of the claim holds, see
    [get_step_comment], [get_step_pair], [get_last_wins] and
    [get_example].) *)
Theorem get_cuts_value :
  fst (get (answering "name=foo=bar") local_control "demo"
           (fresh (answering "name=foo=bar") tt))
  = Return (<["name" := "foo"]> ∅)
  /\ get_values "name=foo=bar" !! "name" = Some "foo"
  /\ get_values "name=foo=bar" !! "name" <> Some "foo=bar".
Proof.
  split; [vm_compute; reflexivity|].
  assert (H : get_values "name=foo=bar" !! "name" = Some "foo")
    by (vm_compute; reflexivity).
  split; [exact H|]. rewrite H. discriminate.
Qed.

(** * Further properties of the code *)

(** ** More on splitting *)

Lemma push_app (c : ascii) (ws l : list string) :
  ws <> [] -> Str.push c (ws ++ l) = (Str.push c ws ++ l)%list.
Proof. destruct ws; [contradiction|reflexivity]. Qed.

(** Splitting a text at a separator splits both sides. *)
Lemma split_app (sep : ascii) (s t : string) :
  Str.split sep (s ++ String sep t)
  = (Str.split sep s ++ Str.split sep t)%list.
Proof.
  induction s as [|c s IH]; simpl.
  - rewrite Ascii.eqb_refl. reflexivity.
  - destruct (Ascii.eqb c sep).
    + rewrite IH. reflexivity.
    + rewrite IH. apply push_app, split_nonempty.
Qed.

Lemma split_max_without (sep : ascii) (s : string) (n : nat) :
  Str.contains sep s = false -> Str.split_max sep s n = [s].
Proof.
  revert n. induction s as [|a s IH]; intros n; simpl.
  - destruct n; reflexivity.
  - destruct (Ascii.eqb a sep); [discriminate|]. intros H.
    destruct n; [reflexivity|]. rewrite (IH _ H). reflexivity.
Qed.

Lemma push_Forall (P : string -> Prop) (c : ascii) (ws : list string) :
  (forall w, P w -> P (String c w)) -> P (String c "") ->
  Forall P ws -> Forall P (Str.push c ws).
Proof.
  intros Hc H0 Hws. destruct Hws as [|w ws Hw Hws]; simpl.
  - constructor; [exact H0|constructor].
  - constructor; [apply Hc, Hw|exact Hws].
Qed.

(** No piece of a split holds the separator, and a character absent from the
    text is absent from every piece. *)
Lemma split_pieces (sep c : ascii) (s : string) :
  (c = sep \/ Str.contains c s = false) ->
  Forall (fun t => Str.contains c t = false) (Str.split sep s).
Proof.
  induction s as [|a s IH]; simpl; intros H.
  - constructor; [reflexivity|constructor].
  - destruct (Ascii.eqb_spec a sep) as [->|Hne].
    + constructor; [reflexivity|]. apply IH.
      destruct H as [H|H]; [left; exact H|right].
      destruct (Ascii.eqb sep c); [discriminate|exact H].
    + assert (Hac : Ascii.eqb a c = false).
      { destruct H as [->|H]; [apply Ascii.eqb_neq, Hne|].
        destruct (Ascii.eqb a c); [discriminate|reflexivity]. }
      assert (H' : c = sep \/ Str.contains c s = false).
      { destruct H as [H|H]; [left; exact H|right].
        rewrite Hac in H. exact H. }
      apply push_Forall; [| |apply IH, H'].
      * intros w Hw. simpl. rewrite Hac. exact Hw.
      * simpl. rewrite Hac. reflexivity.
Qed.

(** ** Decoding what was joined *)

Lemma decode_fields_1_complete
      t_name t_path t_locked t_state t_scen t_skip t_start t_stop t_crash
      t_avg t_max t_min t_lcrash t_lstart t_a1 t_a10 t_a30 rest
      st c1 c2 c3 u1 u2 u3 zc dc zs ds f10 f30 :
  Num.py_int t_state = Return st ->
  Num.py_int t_start = Return c1 ->
  Num.py_int t_stop = Return c2 ->
  Num.py_int t_crash = Return c3 ->
  Num.py_int t_avg = Return u1 ->
  Num.py_int t_max = Return u2 ->
  Num.py_int t_min = Return u3 ->
  Num.py_int t_lcrash = Return zc ->
  decode_last_crash zc = Return dc ->
  Num.py_int t_lstart = Return zs ->
  fromtimestamp zs = Return ds ->
  Num.py_float t_a10 = Return f10 ->
  Num.py_float t_a30 = Return f30 ->
  decode_fields 1 ([t_name; t_path; t_locked; t_state; t_scen; t_skip;
                    t_start; t_stop; t_crash; t_avg; t_max; t_min; t_lcrash;
                    t_lstart; t_a1; t_a10; t_a30] ++ rest)%list
  = Return ({| name := t_name; path := t_path;
               locked := String.eqb t_locked "1"; state := st;
               scenarios := Str.split "'" t_scen;
               start_counter := c1; stop_counter := c2; crash_counter := c3;
               avg_uptime := u1; max_uptime := u2; min_uptime := u3;
               last_crash := dc; last_start := ds; last_stop := None;
               crash_avg1 := String.eqb t_a1 "1";
               crash_avg10 := f10; crash_avg30 := f30 |}, rest).
Proof.
  intros H1 H2 H3 H4 H5 H6 H7 H8 H9 H10 H11 H12 H13.
  unfold decode_fields, next_int, next_float, dbind, next, dlift, dret.
  cbn [app].
  destruct version_tests as (_ & _ & E1 & E2). rewrite E1, E2.
  rewrite H1, H2, H3, H4, H5, H6, H7, H8, H9, H10, H11, H12, H13.
  reflexivity.
Qed.

(** The parse of a line with an accepted version and a joined field block. *)
Lemma parse_joined (marker : bool) (version : string) (v : Z)
      (toks : list string) :
  version = "1" /\ v = 1 \/ version = "2" /\ v = 2 ->
  toks <> [] ->
  Forall (fun t => Str.contains "," t = false) toks ->
  parse_statusline (marked marker (status_line version (join "," toks)))
  = match decode_fields v toks with
    | Return (info, _) => Return info
    | Raise e => Raise e
    end.
Proof.
  intros Hv Hne Hc. rewrite parse_statusline_marked.
  destruct Hv as [[-> ->]|[-> ->]];
    (rewrite parse_status_line by reflexivity);
    [change (Str.mem "1" ["1"; "2"]) with true; rewrite py_int_1
    |change (Str.mem "2" ["1"; "2"]) with true; rewrite py_int_2];
    cbn [rbind]; unfold decode_rest; rewrite (split_join _ _ Hne Hc);
    reflexivity.
Qed.

(** X1: a version 2 line built by joining seventeen tokens without commas
    with [","], behind the tag and with or without the marker, decodes to the
    record of what the tokens convert to: the name and the path verbatim
    (colons included), the two flags true exactly for the token ["1"], the
    scenarios split at the apostrophe. *)
Theorem parse_joined_v2 (marker : bool)
      t_name t_path t_locked t_state t_scen t_start t_stop t_crash
      t_avg t_max t_min t_lcrash t_lstart t_lstop t_a1 t_a10 t_a30
      st c1 c2 c3 u1 u2 u3 zc dc zs ds zp dp f10 f30 :
  Forall (fun t => Str.contains "," t = false)
         [t_name; t_path; t_locked; t_state; t_scen; t_start; t_stop;
          t_crash; t_avg; t_max; t_min; t_lcrash; t_lstart; t_lstop;
          t_a1; t_a10; t_a30] ->
  Num.py_int t_state = Return st ->
  Num.py_int t_start = Return c1 ->
  Num.py_int t_stop = Return c2 ->
  Num.py_int t_crash = Return c3 ->
  Num.py_int t_avg = Return u1 ->
  Num.py_int t_max = Return u2 ->
  Num.py_int t_min = Return u3 ->
  Num.py_int t_lcrash = Return zc ->
  decode_last_crash zc = Return dc ->
  Num.py_int t_lstart = Return zs ->
  fromtimestamp zs = Return ds ->
  Num.py_int t_lstop = Return zp ->
  decode_last_stop zp = Return dp ->
  Num.py_float t_a10 = Return f10 ->
  Num.py_float t_a30 = Return f30 ->
  parse_statusline
    (marked marker
       (status_line "2"
          (join "," [t_name; t_path; t_locked; t_state; t_scen; t_start;
                     t_stop; t_crash; t_avg; t_max; t_min; t_lcrash;
                     t_lstart; t_lstop; t_a1; t_a10; t_a30])))
  = Return {| name := t_name; path := t_path;
              locked := String.eqb t_locked "1"; state := st;
              scenarios := Str.split "'" t_scen;
              start_counter := c1; stop_counter := c2; crash_counter := c3;
              avg_uptime := u1; max_uptime := u2; min_uptime := u3;
              last_crash := dc; last_start := ds; last_stop := Some dp;
              crash_avg1 := String.eqb t_a1 "1";
              crash_avg10 := f10; crash_avg30 := f30 |}.
Proof.
  intros Hc H1 H2 H3 H4 H5 H6 H7 H8 H9 H10 H11 H12 H13 H14 H15.
  rewrite (parse_joined marker "2" 2) by (auto; discriminate).
  match goal with
  | |- context [decode_fields 2 ?l] => change l with (l ++ [])%list
  end.
  rewrite (decode_fields_2_complete _ _ _ _ _ _ _ _ _ _ _ _ _ _ _ _ _ _
             _ _ _ _ _ _ _ _ _ _ _ _ _ _ _
             H1 H2 H3 H4 H5 H6 H7 H8 H9 H10 H11 H12 H13 H14 H15).
  reflexivity.
Qed.

(** X2: a version 1 line is decoded the same way, except that the token
    after the scenarios is dropped whatever it is, and that the record has no
    ['last_stop']. *)
Theorem parse_joined_v1 (marker : bool)
      t_name t_path t_locked t_state t_scen t_skip t_start t_stop t_crash
      t_avg t_max t_min t_lcrash t_lstart t_a1 t_a10 t_a30
      st c1 c2 c3 u1 u2 u3 zc dc zs ds f10 f30 :
  Forall (fun t => Str.contains "," t = false)
         [t_name; t_path; t_locked; t_state; t_scen; t_skip; t_start;
          t_stop; t_crash; t_avg; t_max; t_min; t_lcrash; t_lstart;
          t_a1; t_a10; t_a30] ->
  Num.py_int t_state = Return st ->
  Num.py_int t_start = Return c1 ->
  Num.py_int t_stop = Return c2 ->
  Num.py_int t_crash = Return c3 ->
  Num.py_int t_avg = Return u1 ->
  Num.py_int t_max = Return u2 ->
  Num.py_int t_min = Return u3 ->
  Num.py_int t_lcrash = Return zc ->
  decode_last_crash zc = Return dc ->
  Num.py_int t_lstart = Return zs ->
  fromtimestamp zs = Return ds ->
  Num.py_float t_a10 = Return f10 ->
  Num.py_float t_a30 = Return f30 ->
  parse_statusline
    (marked marker
       (status_line "1"
          (join "," [t_name; t_path; t_locked; t_state; t_scen; t_skip;
                     t_start; t_stop; t_crash; t_avg; t_max; t_min;
                     t_lcrash; t_lstart; t_a1; t_a10; t_a30])))
  = Return {| name := t_name; path := t_path;
              locked := String.eqb t_locked "1"; state := st;
              scenarios := Str.split "'" t_scen;
              start_counter := c1; stop_counter := c2; crash_counter := c3;
              avg_uptime := u1; max_uptime := u2; min_uptime := u3;
              last_crash := dc; last_start := ds; last_stop := None;
              crash_avg1 := String.eqb t_a1 "1";
              crash_avg10 := f10; crash_avg30 := f30 |}.
Proof.
  intros Hc H1 H2 H3 H4 H5 H6 H7 H8 H9 H10 H11 H12 H13.
  rewrite (parse_joined marker "1" 1) by (auto; discriminate).
  match goal with
  | |- context [decode_fields 1 ?l] => change l with (l ++ [])%list
  end.
  rewrite (decode_fields_1_complete _ _ _ _ _ _ _ _ _ _ _ _ _ _ _ _ _ _
             _ _ _ _ _ _ _ _ _ _ _ _ _
             H1 H2 H3 H4 H5 H6 H7 H8 H9 H10 H11 H12 H13).
  reflexivity.
Qed.

(** ** Tokens after the last field *)

Lemma extensible_bind {A B} (m : Decoder A) (k : A -> Decoder B) :
  extensible m -> (forall a, extensible (k a)) -> extensible (dbind m k).
Proof.
  intros Hm Hk it b it2 more H.
  apply dbind_Return in H as (a & it1 & H1 & H2).
  unfold dbind. rewrite (Hm _ _ _ more H1). exact (Hk _ _ _ _ more H2).
Qed.

Lemma extensible_ret {A} (a : A) : extensible (dret a).
Proof. intros it x it1 more [-> ->]%dret_Return. reflexivity. Qed.

Lemma extensible_lift {A} (r : result A) : extensible (dlift r).
Proof.
  intros it x it1 more [-> ->]%dlift_Return. reflexivity.
Qed.

Lemma extensible_next : extensible next.
Proof. intros it x it1 more ->%next_Return. reflexivity. Qed.

Lemma extensible_next_int : extensible next_int.
Proof.
  apply extensible_bind; [apply extensible_next|].
  intros tok. apply extensible_lift.
Qed.

Lemma extensible_next_float : extensible next_float.
Proof.
  apply extensible_bind; [apply extensible_next|].
  intros tok. apply extensible_lift.
Qed.

Lemma decode_fields_extensible (v : Z) : extensible (decode_fields v).
Proof.
  unfold decode_fields.
  destruct (v =? 1), (v >? 1);
    repeat first
      [ apply extensible_ret | apply extensible_lift
      | apply extensible_next | apply extensible_next_int
      | apply extensible_next_float
      | apply extensible_bind; [|intros ?] ].
Qed.

Lemma decode_rest_more (v : Z) (rest tail : string) (info : sabdb_info) :
  decode_rest v rest = Return info ->
  decode_rest v (rest ++ String "," tail) = Return info.
Proof.
  unfold decode_rest. rewrite split_app.
  destruct (decode_fields v (Str.split "," rest)) as [[i r]|e] eqn:E;
    [|discriminate].
  intros [= <-].
  rewrite (decode_fields_extensible v _ _ _ (Str.split "," tail) E).
  reflexivity.
Qed.

(** X3: the decoder never looks past the last field.  Whatever is appended
    behind a further comma to a line that decodes, the line decodes to the
    same record. *)
Theorem trailing_tokens_ignored (marker : bool) (version rest tail : string)
        (info : sabdb_info) :
  Str.contains ":" version = false ->
  parse_statusline (marked marker (status_line version rest)) = Return info ->
  parse_statusline
    (marked marker (status_line version (rest ++ "," ++ tail)))
  = Return info.
Proof.
  intros Hc. rewrite !parse_statusline_marked, !(parse_status_line _ _ Hc).
  destruct (Str.mem version ["1"; "2"]); [|discriminate].
  destruct (Num.py_int version) as [v|e]; [|discriminate].
  cbn [rbind]. apply decode_rest_more.
Qed.

(** ** A tag without a field block *)

(** X4: a line that has the tag but no second colon is not told apart by its
    version: the unpacking of the split into three names fails first, with a
    [ValueError], also when the text after the tag is no accepted version. *)
Theorem missing_colon_raises (marker : bool) (text : string) :
  Str.contains ":" text = false ->
  exists e,
    parse_statusline (marked marker ("sabdb:" ++ text)) = Raise e
    /\ class_of e = ClsValueError.
Proof.
  intros H.
  assert (Hm : strip_marker (marked marker ("sabdb:" ++ text))
               = "sabdb:" ++ text).
  { destruct marker; [apply strip_marker_marked|reflexivity]. }
  unfold parse_statusline. rewrite Hm.
  assert (Ht : Str.startswith ("sabdb:" ++ text) "sabdb:" = true).
  { unfold Str.startswith. cbn. apply prefix_empty. }
  rewrite Ht. cbn [negb].
  assert (Hs : Str.split_max ":" ("sabdb:" ++ text) 2 = ["sabdb"; text]).
  { change (Str.split_max ":" ("sabdb:" ++ text) 2)
      with (Str.push "s" (Str.push "a" (Str.push "b" (Str.push "d"
             (Str.push "b" ("" :: Str.split_max ":" text 1)))))).
    rewrite (split_max_without _ _ _ H). reflexivity. }
  rewrite Hs. eexists. split; reflexivity.
Qed.

(** ** Every exception of the parser *)

(** X5: [parse_statusline] lets five kinds of exceptions out and no other:
    [OperationalError('wrong result recieved')] and
    [InterfaceError('unsupported sabdb protocol')], which it raises itself,
    and the [StopIteration], [ValueError] and timestamp range error of the
    built-ins it calls.  The first is raised exactly for a missing tag. *)
Theorem parse_statusline_exceptions (line : string) (e : exn) :
  parse_statusline line = Raise e ->
  (e = OperationalError "wrong result recieved"
   /\ Str.startswith (strip_marker line) "sabdb:" = false)
  \/ (Str.startswith (strip_marker line) "sabdb:" = true
      /\ (e = InterfaceError "unsupported sabdb protocol" \/ decode_error e)).
Proof.
  unfold parse_statusline.
  destruct (Str.startswith (strip_marker line) "sabdb:");
    cbn [negb]; [|intros [= <-]; left; auto].
  intros H. right. split; [reflexivity|].
  destruct (Str.split_max ":" (strip_marker line) 2)
    as [|code [|version [|rest [|? ?]]]];
    try (injection H as <-; right; apply decode_error_value).
  destruct (Str.mem version ["1"; "2"]); cbn [negb] in H;
    [|injection H as <-; left; reflexivity].
  right. destruct (Num.py_int version) as [v|e1] eqn:Hi; cbn [rbind] in H.
  - exact (decode_rest_Raise _ _ _ H).
  - injection H as <-. apply py_int_Raise in Hi as ->.
    apply decode_error_value.
Qed.

(** ** The listing of all databases *)

Lemma parse_lines_app_failure (good : list string) (infos : list sabdb_info)
      (bad : string) (rest : list string) (e : exn) :
  Forall2 (fun line info => parse_statusline line = Return info) good infos ->
  parse_statusline bad = Raise e ->
  parse_lines (good ++ bad :: rest) = Raise e.
Proof.
  intros Hgood Hbad.
  induction Hgood as [|line info good infos Hl _ IH]; simpl.
  - rewrite Hbad. reflexivity.
  - rewrite Hl. cbn [rbind]. rewrite IH. reflexivity.
Qed.

Lemma parse_lines_ends_empty (lines : list string) :
  exists e, parse_lines (lines ++ [""]) = Raise e.
Proof.
  induction lines as [|line lines [e IH]]; simpl.
  - eexists. reflexivity.
  - destruct (parse_statusline line) as [info|e1]; cbn [rbind].
    + rewrite IH. exists e. reflexivity.
    + exists e1. reflexivity.
Qed.

(** X6: when [status] lists all databases, the first line of the reply that
    does not decode ends the call with its exception: the records of the
    lines before it are lost and the lines after it are not looked at. *)
Theorem status_all_first_failure (T : Transport) (self : Control)
        (database_name : pyvalue) (w : world T) s1 raw s2 s3
        (good : list string) (infos : list sabdb_info) (bad : string)
        (rest : list string) (e : exn) :
  truthy database_name = false ->
  t_connect T (control_args self) (server w) = (Return tt, s1) ->
  t_cmd T (request_line "#all" "status") s1 = (Return raw, s2) ->
  t_disconnect T s2 = (Return tt, s3) ->
  Str.split lf raw = (good ++ bad :: rest)%list ->
  Forall2 (fun line info => parse_statusline line = Return info) good infos ->
  parse_statusline bad = Raise e ->
  fst (status T self database_name w) = Raise e.
Proof.
  intros Ht Hc Hq Hd Hs Hgood Hbad.
  assert (Hq' : t_cmd T (request_line (status_target database_name) "status")
                  s1 = (Return raw, s2))
    by (unfold status_target; rewrite Ht; exact Hq).
  rewrite (status_run _ _ _ _ _ _ _ _ Hc Hq' Hd), Ht. cbn [fst].
  rewrite Hs, (parse_lines_app_failure _ _ _ _ _ Hgood Hbad). reflexivity.
Qed.

(** X7: a listing that is empty, or that ends with a line feed, cannot be
    read: its last line is empty and has no tag, so that [status] raises for
    every such reply, with ['wrong result recieved'] when the lines before
    all decode. *)
Theorem status_all_open_end (T : Transport) (self : Control)
        (database_name : pyvalue) (w : world T) s1 raw s2 s3 :
  truthy database_name = false ->
  t_connect T (control_args self) (server w) = (Return tt, s1) ->
  t_cmd T (request_line "#all" "status") s1 = (Return raw, s2) ->
  t_disconnect T s2 = (Return tt, s3) ->
  raw = "" \/ (exists body, raw = body ++ newline) ->
  (exists e, fst (status T self database_name w) = Raise e)
  /\ (forall body infos,
         raw = body ++ newline ->
         Forall2 (fun line info => parse_statusline line = Return info)
                 (Str.split lf body) infos ->
         fst (status T self database_name w)
         = Raise (OperationalError "wrong result recieved")).
Proof.
  intros Ht Hc Hq Hd Hraw.
  assert (Hq' : t_cmd T (request_line (status_target database_name) "status")
                  s1 = (Return raw, s2))
    by (unfold status_target; rewrite Ht; exact Hq).
  rewrite (status_run _ _ _ _ _ _ _ _ Hc Hq' Hd), Ht. cbn [fst].
  split.
  - destruct Hraw as [->|[body ->]].
    + eexists. reflexivity.
    + unfold newline. rewrite split_app.
      change (Str.split lf "") with [""].
      destruct (parse_lines_ends_empty (Str.split lf body)) as [e He].
      rewrite He. exists e. reflexivity.
  - intros body infos -> Hall. unfold newline. rewrite split_app.
    change (Str.split lf "") with [""].
    rewrite (parse_lines_app_failure _ _ "" [] _ Hall eq_refl). reflexivity.
Qed.

(** ** The lines of a property listing *)

Lemma get_step_strip (values : gmap string string) (line : string) :
  get_step values line =
    if negb (Str.startswith (strip_marker line) "#") then
      if Str.contains "=" (strip_marker line) then
        <[nth 0 (Str.split "=" (strip_marker line)) ""
          := nth 1 (Str.split "=" (strip_marker line)) ""]> values
      else values
    else values.
Proof. reflexivity. Qed.

Lemma get_step_skipped (values : gmap string string) (line : string) :
  skipped line = true -> get_step values line = values.
Proof.
  unfold skipped. rewrite get_step_strip.
  destruct (Str.startswith (strip_marker line) "#"); [reflexivity|].
  cbn [orb negb]. destruct (Str.contains "=" (strip_marker line));
    [discriminate|reflexivity].
Qed.

Lemma contains_head (c : ascii) (s : string) :
  Str.contains c s = false -> Str.startswith s (String c "") = false.
Proof.
  destruct s as [|a s]; [reflexivity|]. rewrite startswith_cons.
  simpl. rewrite (Ascii.eqb_sym c a).
  destruct (Ascii.eqb a c); [discriminate|reflexivity].
Qed.

Lemma skipped_without_equals (line : string) :
  Str.contains "=" line = false -> skipped line = true.
Proof.
  intros H. unfold skipped.
  rewrite (strip_marker_plain _ (contains_head _ _ H)), H.
  apply orb_true_r.
Qed.

Lemma get_step_marked (values : gmap string string) (marker : bool)
      (line : string) :
  Str.startswith line "=" = false ->
  get_step values (marked marker line) = get_step values line.
Proof.
  intros H. rewrite !get_step_strip.
  assert (E : strip_marker (marked marker line) = strip_marker line).
  { destruct marker; [|reflexivity]. cbn [marked].
    rewrite strip_marker_marked, (strip_marker_plain _ H). reflexivity. }
  rewrite E. reflexivity.
Qed.

(** The reply with one more line: the loop makes one more step. *)
Lemma get_values_snoc (properties line : string) :
  Str.contains lf line = false ->
  get_values (properties ++ newline ++ line)
  = get_step (get_values properties) line.
Proof.
  intros H. unfold get_values.
  change (properties ++ newline ++ line) with (properties ++ String lf line).
  rewrite split_app, fold_left_app, (split_without _ _ H). reflexivity.
Qed.

Lemma contains_marked (c : ascii) (marker : bool) (line : string) :
  Ascii.eqb "=" c = false ->
  Str.contains c (marked marker line) = Str.contains c line.
Proof.
  intros H. destruct marker; [|reflexivity].
  cbn [marked Str.contains]. rewrite H. reflexivity.
Qed.

Lemma contains_append (c : ascii) (s t : string) :
  Str.contains c (s ++ t) = Str.contains c s || Str.contains c t.
Proof.
  induction s as [|a s IH]; simpl; [reflexivity|].
  destruct (Ascii.eqb a c); [reflexivity|exact IH].
Qed.

(** X8: a reply in which no ["="] occurs, be it empty or the text of an
    error of the server, gives the empty dictionary: [get] returns it and
    raises nothing. *)
Theorem get_without_equals (T : Transport) (self : Control)
        (database_name : string) (w : world T) s1 reply s2 s3 :
  t_connect T (control_args self) (server w) = (Return tt, s1) ->
  t_cmd T (request_line database_name "get") s1 = (Return reply, s2) ->
  t_disconnect T s2 = (Return tt, s3) ->
  Str.contains "=" reply = false ->
  fst (get T self database_name w) = Return ∅.
Proof.
  intros Hc Hq Hd Hr. unfold get, io_bind.
  rewrite (send_command_run _ _ _ _ _ _ _ _ _ _ Hc Hq Hd).
  cbn [fst io_ret]. f_equal. unfold get_values.
  pose proof (split_pieces lf "=" reply (or_intror Hr)) as Hall.
  induction Hall as [|line lines Hl _ IH]; [reflexivity|].
  cbn [fold_left].
  rewrite (get_step_skipped _ _ (skipped_without_equals _ Hl)). exact IH.
Qed.

Lemma get_without_equals_witness :
  fst (get (answering "no such database: demo") local_control "demo"
           (fresh (answering "no such database: demo") tt))
  = Return ∅.
Proof.
  apply (get_without_equals (answering "no such database: demo")
           local_control "demo"
           (fresh (answering "no such database: demo") tt)
           tt "no such database: demo" tt tt);
    reflexivity.
Defined.

(** X9: a further line that is a comment, or that has no ["="] once the
    marker is dropped (an empty line, the line after a final line feed),
    leaves the dictionary as it was. *)
Theorem get_ignores_line (properties line : string) :
  Str.contains lf line = false ->
  skipped line = true ->
  get_values (properties ++ newline ++ line) = get_values properties.
Proof.
  intros Hl Hs. rewrite (get_values_snoc _ _ Hl).
  apply get_step_skipped, Hs.
Qed.

Lemma get_ignores_line_witness :
  get_values ("name=foo" ++ newline ++ "=# port=1") = get_values "name=foo"
  /\ get_values ("name=foo" ++ newline ++ "") = get_values "name=foo".
Proof.
  split.
  - apply (get_ignores_line "name=foo" "=# port=1"); reflexivity.
  - apply (get_ignores_line "name=foo" ""); reflexivity.
Defined.

(** X10: a further line [key=value], with or without the marker, binds the
    key to the value, over whatever the lines before bound it to: the last
    occurrence of a key wins. *)
Theorem get_binds_last (properties : string) (marker : bool) (c : ascii)
        (key value : string) :
  Ascii.eqb c "=" = false -> Ascii.eqb c "#" = false ->
  Ascii.eqb c lf = false ->
  plain_text key -> plain_text value ->
  get_values (properties ++ newline
              ++ marked marker (String c key ++ "=" ++ value))
  = <[String c key := value]> (get_values properties)
  /\ get_values (properties ++ newline
                 ++ marked marker (String c key ++ "=" ++ value))
     !! String c key = Some value.
Proof.
  intros Hc Hh Hn [Hk Hkn] [Hv Hvn].
  assert (Hl : Str.contains lf
                 (marked marker (String c key ++ "=" ++ value)) = false).
  { rewrite contains_marked by reflexivity.
    change (String c key ++ "=" ++ value)
      with (String c (key ++ String "=" value)).
    simpl Str.contains at 1. rewrite Hn, contains_append, Hkn.
    simpl. exact Hvn. }
  assert (E : get_values (properties ++ newline
                ++ marked marker (String c key ++ "=" ++ value))
              = <[String c key := value]> (get_values properties)).
  { rewrite (get_values_snoc _ _ Hl), get_step_marked.
    - apply get_step_pair; assumption.
    - change (String c key ++ "=" ++ value)
        with (String c (key ++ String "=" value)).
      rewrite startswith_cons, Ascii.eqb_sym. exact Hc. }
  split; [exact E|]. rewrite E. apply lookup_insert_eq.
Qed.

Lemma get_binds_last_witness :
  get_values ("port=5000" ++ newline ++ "name=foo" ++ newline
              ++ marked true ("port" ++ "=" ++ "6000"))
  !! "port" = Some "6000".
Proof.
  apply (get_binds_last ("port=5000" ++ newline ++ "name=foo")
           true "p" "ort" "6000");
    first [reflexivity | split; reflexivity].
Defined.

(** X11: when the value of a line holds a further ["="], the key is bound to
    the text between the first two ["="] and the remainder of the line is
    dropped. *)
Theorem get_drops_after_second_equals (properties : string) (marker : bool)
        (c : ascii) (key value remainder : string) :
  Ascii.eqb c "=" = false -> Ascii.eqb c "#" = false ->
  Ascii.eqb c lf = false ->
  plain_text key -> plain_text value ->
  Str.contains lf remainder = false ->
  get_values (properties ++ newline
              ++ marked marker (String c key ++ "=" ++ value
                                ++ "=" ++ remainder))
  = <[String c key := value]> (get_values properties).
Proof.
  intros Hc Hh Hn [Hk Hkn] [Hv Hvn] Hr.
  assert (Hl : Str.contains lf
                 (marked marker (String c key ++ "=" ++ value
                                 ++ "=" ++ remainder)) = false).
  { rewrite contains_marked by reflexivity.
    change (String c key ++ "=" ++ value ++ "=" ++ remainder)
      with (String c (key ++ String "=" (value ++ String "=" remainder))).
    simpl Str.contains at 1. rewrite Hn, contains_append, Hkn.
    simpl. rewrite contains_append, Hvn. simpl. exact Hr. }
  rewrite (get_values_snoc _ _ Hl), get_step_marked.
  - apply get_step_cut; assumption.
  - change (String c key ++ "=" ++ value ++ "=" ++ remainder)
      with (String c (key ++ String "=" (value ++ String "=" remainder))).
    rewrite startswith_cons, Ascii.eqb_sym. exact Hc.
Qed.

Lemma get_drops_after_second_equals_witness :
  get_values ("port=5000" ++ newline
              ++ marked false ("url" ++ "=" ++ "mapi:monetdb://h/db?lang"
                               ++ "=" ++ "sql&x=1"))
  = <["url" := "mapi:monetdb://h/db?lang"]> (get_values "port=5000").
Proof.
  apply (get_drops_after_second_equals "port=5000" false "u" "rl"
           "mapi:monetdb://h/db?lang" "sql&x=1");
    first [reflexivity | split; reflexivity].
Defined.

(** ** What the dictionary of [get] can hold *)

Lemma nth_Forall (P : string -> Prop) (l : list string) (n : nat) :
  P "" -> Forall P l -> P (nth n l "").
Proof.
  intros H0 Hl. revert n.
  induction Hl as [|x l Hx _ IH]; intros [|n]; simpl; auto.
Qed.

Lemma strip_marker_contains (c : ascii) (line : string) :
  Str.contains c line = false -> Str.contains c (strip_marker line) = false.
Proof.
  unfold strip_marker. destruct (Str.startswith line "="); [|auto].
  destruct line as [|a line]; [auto|]. simpl.
  destruct (Ascii.eqb a c); [discriminate|auto].
Qed.

Lemma plain_text_empty : plain_text "".
Proof. split; reflexivity. Qed.

Lemma get_step_plain_entries (values : gmap string string) (line : string) :
  Str.contains lf line = false ->
  (forall k v, values !! k = Some v -> plain_text k /\ plain_text v) ->
  forall k v, get_step values line !! k = Some v ->
              plain_text k /\ plain_text v.
Proof.
  intros Hl Hinv k v. rewrite get_step_strip.
  destruct (negb (Str.startswith (strip_marker line) "#")); [|apply Hinv].
  destruct (Str.contains "=" (strip_marker line)); [|apply Hinv].
  assert (Hp : Forall plain_text (Str.split "=" (strip_marker line))).
  { apply Forall_and; split.
    - apply (split_pieces "=" "="). left. reflexivity.
    - apply (split_pieces "=" lf). right.
      apply strip_marker_contains, Hl. }
  destruct (decide (nth 0 (Str.split "=" (strip_marker line)) "" = k))
    as [<-|Hne].
  - rewrite lookup_insert_eq. intros [= <-].
    split; apply nth_Forall; auto using plain_text_empty.
  - rewrite lookup_insert_ne by exact Hne. apply Hinv.
Qed.

(** X12: no key and no value of the dictionary that [get] builds holds an
    ["="] or a line feed, whatever the reply. *)
Theorem get_entries_are_plain (properties key value : string) :
  get_values properties !! key = Some value ->
  plain_text key /\ plain_text value.
Proof.
  unfold get_values.
  pose proof (split_pieces lf lf properties (or_introl eq_refl)) as Hall.
  assert (Hinv : forall k v, (∅ : gmap string string) !! k = Some v ->
                             plain_text k /\ plain_text v)
    by (intros k v H; rewrite lookup_empty in H; discriminate H).
  revert Hinv key value.
  generalize (∅ : gmap string string) as values.
  induction Hall as [|line lines Hl _ IH]; intros values Hinv; cbn [fold_left].
  - exact Hinv.
  - apply IH. apply (get_step_plain_entries _ _ Hl Hinv).
Qed.

Lemma get_entries_are_plain_witness :
  plain_text "url" /\ plain_text "mapi:monetdb://h/db?lang".
Proof.
  apply (get_entries_are_plain
           ("port=5000" ++ newline ++ "url=mapi:monetdb://h/db?lang=sql")
           "url" "mapi:monetdb://h/db?lang").
  vm_compute. reflexivity.
Defined.

(** X13: in a property listing too the continuation marker is optional: a
    line that does not itself begin with ["="] gives the same dictionary
    with the marker in front as without. *)
Theorem get_marker_is_optional (properties line : string) :
  Str.contains lf line = false ->
  Str.startswith line "=" = false ->
  get_values (properties ++ newline ++ "=" ++ line)
  = get_values (properties ++ newline ++ line).
Proof.
  intros Hl Hs.
  assert (Hl' : Str.contains lf ("=" ++ line) = false) by exact Hl.
  rewrite (get_values_snoc _ _ Hl'), (get_values_snoc _ _ Hl).
  exact (get_step_marked _ true line Hs).
Qed.

Lemma get_marker_is_optional_witness :
  get_values ("a=1" ++ newline ++ "=" ++ "port=5000")
  = get_values ("a=1" ++ newline ++ "port=5000").
Proof. apply (get_marker_is_optional "a=1" "port=5000"); reflexivity. Defined.

(** X14: under the test ["=" in line] the split at ["="] has a first and a
    second piece, so that [split[0]] and [split[1]] never raise an
    [IndexError]; the first piece is the text before the first ["="], and
    the step of the loop of [get] binds the first piece to the second. *)
Theorem get_guard_gives_two_pieces (line : string) :
  Str.contains "=" line = true ->
  exists key value more,
    Str.split "=" line = key :: value :: more
    /\ Str.contains "=" key = false
    /\ Str.contains "=" value = false
    /\ (forall values,
           Str.startswith line "=" = false ->
           Str.startswith line "#" = false ->
           get_step values line = <[key := value]> values).
Proof.
  intros H. pose proof (split_contains_length _ _ H) as Hlen.
  pose proof (split_pieces "=" "=" line (or_introl eq_refl)) as Hall.
  destruct (Str.split "=" line) as [|key [|value more]] eqn:E;
    simpl in Hlen; try lia.
  exists key, value, more. split; [reflexivity|].
  inversion Hall as [|? ? Hk Hrest]; subst.
  inversion Hrest as [|? ? Hv _]; subst.
  split; [exact Hk|]. split; [exact Hv|].
  intros values Hm Hh. unfold get_step.
  rewrite Hm, Hh. cbn [negb]. rewrite H, E. reflexivity.
Qed.

Lemma get_guard_gives_two_pieces_witness :
  exists key value more,
    Str.split "=" "name=foo=bar" = key :: value :: more
    /\ Str.contains "=" key = false
    /\ Str.contains "=" value = false
    /\ (forall values,
           Str.startswith "name=foo=bar" "=" = false ->
           Str.startswith "name=foo=bar" "#" = false ->
           get_step values "name=foo=bar" = <[key := value]> values).
Proof. apply (get_guard_gives_two_pieces "name=foo=bar"). reflexivity. Defined.

(** ** Failures of the transport *)

(** X15: when connecting fails, every command ends with the exception of
    [connect]: nothing is sent, [disconnect] is not called, and the mutating
    commands, [status] and [get] all let the exception through unchanged. *)
Theorem refused_connection (T : Transport) (self : Control) (w : world T)
        (e : exn) s1 :
  t_connect T (control_args self) (server w) = (Raise e, s1) ->
  (forall database_name command,
      _send_command T self database_name command w
      = (Raise e, {| server := s1;
                     calls := calls w ++ [CallConnect (control_args self)] |}))
  /\ (forall c, fst (invoke T self c w) = Raise e)
  /\ (forall database_name, fst (status T self database_name w) = Raise e)
  /\ (forall database_name, fst (get T self database_name w) = Raise e).
Proof.
  intros Hc.
  assert (Hs : forall database_name command,
             _send_command T self database_name command w
             = (Raise e, {| server := s1;
                            calls := calls w
                                     ++ [CallConnect (control_args self)] |}))
    by (intros; apply send_command_refused, Hc).
  split; [exact Hs|]. split; [|split].
  - intros c. rewrite invoke_unfold. unfold io_bind. rewrite Hs. reflexivity.
  - intros database_name. unfold status.
    destruct (truthy database_name); unfold io_bind; rewrite Hs; reflexivity.
  - intros database_name. unfold get, io_bind. rewrite Hs. reflexivity.
Qed.

(** X16: the outcome of a mutating command over a connection that was
    opened.  An exception of [cmd] comes out as it is; otherwise the reply is
    judged by [isempty]; and in both cases an exception of [disconnect]
    replaces the outcome, even that of a command the server accepted. *)
Theorem mutating_outcome (T : Transport) (self : Control)
        (c : mutating_call) (w : world T) s1 (rq : result string) s2
        (rd : result unit) s3 :
  t_connect T (control_args self) (server w) = (Return tt, s1) ->
  t_cmd T (request_line (target c) (command_text c)) s1 = (rq, s2) ->
  t_disconnect T s2 = (rd, s3) ->
  fst (invoke T self c w)
  = match rd with
    | Raise e => Raise e
    | Return _ => rbind rq isempty
    end.
Proof.
  intros Hc Hq Hd. rewrite invoke_unfold. unfold io_bind.
  rewrite (send_command_run _ _ _ _ _ _ _ _ _ _ Hc Hq Hd).
  destruct rd as [u|e]; [|reflexivity].
  destruct rq as [reply|e]; reflexivity.
Qed.

Lemma mutating_outcome_witness :
  fst (invoke (dropping "" (OtherError "socket.error" "reset")) local_control
              (CallCreate "demo")
              (fresh (dropping "" (OtherError "socket.error" "reset")) tt))
  = Raise (OtherError "socket.error" "reset").
Proof.
  apply (mutating_outcome (dropping "" (OtherError "socket.error" "reset"))
           local_control (CallCreate "demo")
           (fresh (dropping "" (OtherError "socket.error" "reset")) tt)
           tt (Return "") tt (Raise (OtherError "socket.error" "reset")) tt);
    reflexivity.
Defined.

(** ** The constructor *)





End LocalZone.

Arguments World {T} _ _.
Arguments io_ret {T A} a w.
Arguments io_bind {T A B} m k w.
Arguments io_lift {T A} r w.
Arguments try_finally {T A} body handler w.
Arguments server {T} _.
Arguments calls {T} _.

(** * [fromtimestamp] from zone to zone *)

(** Under UTC the first day of the year 1 is refused, for the sake of the
    reading one day earlier, and the last second of the year 9999 is the
    last instant accepted. *)
Example utc_first_day :
  fromtimestamp utc (-62135596800) = Raise (TimestampRangeError (-62135596800))
  /\ fromtimestamp utc (-62135510401)
     = Raise (TimestampRangeError (-62135510401))
  /\ fromtimestamp utc (-62135510400) = Return (Datetime (-62135510400) false).
Proof. repeat split; vm_compute; reflexivity. Qed.

Example utc_last_second :
  fromtimestamp utc 253402300799 = Return (Datetime 253402300799 false)
  /\ fromtimestamp utc 253402300800 = Raise (TimestampRangeError 253402300800).
Proof. split; vm_compute; reflexivity. Qed.

(** East of UTC the year 9999 ends earlier, west of it later. *)
Example east_last_second :
  fromtimestamp east_9h 253402300799 = Raise (TimestampRangeError 253402300799)
  /\ fromtimestamp east_9h 253402268399 = Return (Datetime 253402300799 false).
Proof. split; vm_compute; reflexivity. Qed.

Example west_last_second :
  fromtimestamp west_5h 253402300800 = Return (Datetime 253402282800 false)
  /\ fromtimestamp west_5h 253402318800
     = Raise (TimestampRangeError 253402318800).
Proof. split; vm_compute; reflexivity. Qed.

(** Where the clock was set back, the hour that follows repeats the readings
    of the hour before, and [fold] tells the second time from the first. *)
Example set_back_fold :
  fromtimestamp set_back 999 = Return (Datetime 8199 false)
  /\ fromtimestamp set_back 4599 = Return (Datetime 8199 true)
  /\ fromtimestamp set_back 4600 = Return (Datetime 8200 false).
Proof. repeat split; vm_compute; reflexivity. Qed.

(** * The statements at work, in a process whose zone is UTC *)

Example parse_v1 :
  option_map last_stop
    (match (parse_statusline utc)
             "=sabdb:1:a,/p,1,2,sql'mal,x,1,2,3,4,5,6,0,7,0,0.5,1e0" with
     | Return i => Some i | Raise _ => None end) = Some None.
Proof. vm_compute. reflexivity. Qed.

(** C8, as stated, fails: when the body itself begins with ["="], the line
    ["=" ++ b] loses one marker and is rejected for its tag, while [b] loses
    its own marker and decodes. *)
Lemma marker_counterexample :
  (parse_statusline utc) ("=" ++ ("=" ++ example_line))
    = Raise (OperationalError "wrong result recieved")
  /\ (parse_statusline utc) ("=" ++ example_line) = Return (example_info utc).
Proof. split; vm_compute; reflexivity. Qed.

Lemma marker_is_optional_witness :
  Str.startswith example_line "=" = false
  /\ (parse_statusline utc) ("=" ++ example_line) = (parse_statusline utc) example_line.
Proof.
  split; [reflexivity|]. apply ((marker_is_optional utc) example_line). reflexivity.
Defined.

(** C5, as stated, fails: a reply without the tag and a server-reported
    failure both raise [OperationalError]; when the server's message happens
    to read the same, even the exception values coincide. *)
Lemma tag_counterexample :
  ~ (mismatch_distinguishable utc) "no such database" "no such database"
  /\ (parse_statusline utc) "wrong result recieved"
     = Raise (OperationalError "wrong result recieved")
  /\ isempty "wrong result recieved"
     = Raise (OperationalError "wrong result recieved").
Proof.
  split; [|split; vm_compute; reflexivity].
  intros (e & e' & He & He' & Hne).
  vm_compute in He, He'. injection He as <-. injection He' as <-.
  apply Hne. reflexivity.
Qed.

Lemma missing_tag_raises_witness :
  (parse_statusline utc) "=status: ok"
  = Raise (OperationalError "wrong result recieved").
Proof. apply ((missing_tag_raises utc) "=status: ok"). reflexivity. Defined.

(** C6, as stated, fails: the token ["02"] denotes the integer 2, and a line
    carrying it is rejected. *)
Lemma version_counterexample :
  Num.py_int "02" = Return 2
  /\ (parse_statusline utc) (status_line "02" example_body)
     = Raise (InterfaceError "unsupported sabdb protocol")
  /\ (parse_statusline utc) (status_line "2" example_body) = Return (example_info utc).
Proof. repeat split; vm_compute; reflexivity. Qed.

Lemma version_is_checked_as_text_witness :
  (parse_statusline utc) (marked true (status_line " 2" example_body))
  = Raise (InterfaceError "unsupported sabdb protocol").
Proof.
  apply ((version_is_checked_as_text utc) true " 2" example_body).
  - reflexivity.
  - intros [H | H]; discriminate H.
Defined.

(** C4, as stated, fails: the code has no malformed-line error.  A line that
    runs out of tokens leaks the [StopIteration] of the exhausted iterator,
    which is not an exception class of [monetdb.exceptions]; and when a token
    before the end does not convert, the [ValueError] of the conversion comes
    first. *)
Lemma short_line_counterexample :
  (parse_statusline utc) "sabdb:2:mydb,/var/db/mydb" = Raise StopIteration
  /\ ~ module_error StopIteration
  /\ (parse_statusline utc) "sabdb:2:mydb,/var/db/mydb,0,up" = Raise (ValueError "up")
  /\ ~ module_error (ValueError "up").
Proof.
  repeat split; try (vm_compute; reflexivity);
    intros [H | H]; discriminate H.
Qed.

Lemma short_line_raises_witness :
  exists e,
    (parse_statusline utc) (marked false (status_line "1" "mydb,/var/db/mydb,0"))
    = Raise e /\ decode_error e.
Proof.
  apply ((short_line_raises utc) false "1" "mydb,/var/db/mydb,0").
  - left. reflexivity.
  - vm_compute. lia.
Defined.

(** C2, as stated, fails: on the example line the scenarios are the list
    [['', 'sql', '']]; read as a set it contains the empty string besides
    ["sql"]. *)
Lemma scenarios_counterexample :
  ~ exists info,
      (parse_statusline utc) example_line = Return info
      /\ forall s, In s (scenarios info) <-> s = "sql".
Proof.
  intros (info & Hp & Hs). rewrite (parse_example utc) in Hp.
  injection Hp as <-.
  assert (H : "" = "sql") by (apply Hs; simpl; auto).
  discriminate H.
Qed.

Lemma scenarios_are_split_witness :
  scenarios (example_info utc) = [""; "sql"; ""]
  /\ last_crash (example_info utc) = None
  /\ crash_avg1 (example_info utc) = true.
Proof.
  destruct ((scenarios_are_split utc) example_line (example_info utc) (parse_example utc))
    as [_ H].
  destruct (H eq_refl) as (Hs & _ & _ & _ & Hc & _ & _ & Ha).
  auto.
Defined.



Lemma status_by_truthiness_witness :
  fst ((status utc) (answering two_lines) local_control (PyStr "")
              (fresh (answering two_lines) tt))
  = Return (AllStatus [(example_info utc); (example_info utc)])
  /\ calls (snd ((status utc) (answering two_lines) local_control (PyStr "")
                        (fresh (answering two_lines) tt)))
     = [CallConnect (control_args local_control);
        CallCmd ("#all status" ++ String "010" "");
        CallDisconnect].
Proof.
  destruct ((status_by_truthiness utc) (answering two_lines) local_control
              (PyStr "") (fresh (answering two_lines) tt) tt
              ("#all status" ++ String "010" "") two_lines tt tt
              eq_refl eq_refl eq_refl) as (_ & H & _).
  destruct (H eq_refl eq_refl) as (Hcalls & -> & _).
  split; [vm_compute; reflexivity|exact Hcalls].
Defined.

Lemma parse_joined_v2_witness :
  (parse_statusline utc)
    (marked true
       (status_line "2"
          (join "," ["db:1"; "/var:/db"; "1"; " 2"; "sql'mal"; "1_0"; "+2";
                     "0"; "4"; "5"; "6"; "-1"; "0"; "7"; "yes"; ".5";
                     "1e3"])))
  = Return {| name := "db:1"; path := "/var:/db"; locked := true;
              state := 2; scenarios := ["sql"; "mal"];
              start_counter := 10; stop_counter := 2; crash_counter := 0;
              avg_uptime := 4; max_uptime := 5; min_uptime := 6;
              last_crash := None; last_start := Datetime 0 false;
              last_stop := Some (Some (Datetime 7 false));
              crash_avg1 := false;
              crash_avg10 := S754_finite false 4503599627370496 (-53);
              crash_avg30 := S754_finite false 8796093022208000 (-43) |}.
Proof.
  eapply ((parse_joined_v2 utc) true "db:1" "/var:/db" "1" " 2" "sql'mal" "1_0" "+2"
           "0" "4" "5" "6" "-1" "0" "7" "yes" ".5" "1e3");
    first [reflexivity | repeat constructor].
Defined.

Lemma parse_joined_v1_witness :
  (parse_statusline utc)
    (marked false
       (status_line "1"
          (join "," ["db"; "/p"; "0"; "1"; "sql"; "not a number"; "1"; "2";
                     "3"; "4"; "5"; "6"; "12"; "34"; "1"; "0.25"; "nan"])))
  = Return {| name := "db"; path := "/p"; locked := false;
              state := 1; scenarios := ["sql"];
              start_counter := 1; stop_counter := 2; crash_counter := 3;
              avg_uptime := 4; max_uptime := 5; min_uptime := 6;
              last_crash := Some (Datetime 12 false);
              last_start := Datetime 34 false;
              last_stop := None;
              crash_avg1 := true;
              crash_avg10 := S754_finite false 4503599627370496 (-54);
              crash_avg30 := S754_nan |}.
Proof.
  eapply ((parse_joined_v1 utc) false "db" "/p" "0" "1" "sql" "not a number" "1" "2"
           "3" "4" "5" "6" "12" "34" "1" "0.25" "nan");
    first [reflexivity | repeat constructor].
Defined.

Lemma trailing_tokens_ignored_witness :
  (parse_statusline utc)
    (marked false (status_line "2" (example_body ++ "," ++ "more,and:more")))
  = Return (example_info utc).
Proof.
  apply ((trailing_tokens_ignored utc) false "2" example_body "more,and:more");
    reflexivity.
Defined.

Lemma missing_colon_raises_witness :
  exists e,
    (parse_statusline utc) (marked true ("sabdb:" ++ "7")) = Raise e
    /\ class_of e = ClsValueError.
Proof. apply ((missing_colon_raises utc) true "7"). reflexivity. Defined.

Lemma parse_statusline_exceptions_witness :
  Str.startswith (strip_marker "sabdb:3:mydb") "sabdb:" = true
  /\ (InterfaceError "unsupported sabdb protocol"
      = InterfaceError "unsupported sabdb protocol"
      \/ decode_error (InterfaceError "unsupported sabdb protocol")).
Proof.
  destruct ((parse_statusline_exceptions utc) "sabdb:3:mydb"
              (InterfaceError "unsupported sabdb protocol") eq_refl)
    as [[H _]|H]; [discriminate H|exact H].
Defined.

Lemma status_all_first_failure_witness :
  fst ((status utc) (answering broken_listing) local_control (PyBool false)
              (fresh (answering broken_listing) tt))
  = Raise (InterfaceError "unsupported sabdb protocol").
Proof.
  apply ((status_all_first_failure utc) (answering broken_listing) local_control
           (PyBool false) (fresh (answering broken_listing) tt)
           tt broken_listing tt tt
           [example_line] [(example_info utc)] "sabdb:3:other" ["not looked at"]);
    try reflexivity.
  repeat constructor.
Defined.

Lemma status_all_open_end_witness :
  fst ((status utc) (answering (example_line ++ newline)) local_control PyNone
              (fresh (answering (example_line ++ newline)) tt))
  = Raise (OperationalError "wrong result recieved").
Proof.
  destruct ((status_all_open_end utc) (answering (example_line ++ newline))
              local_control PyNone
              (fresh (answering (example_line ++ newline)) tt)
              tt (example_line ++ newline) tt tt
              eq_refl eq_refl eq_refl eq_refl
              (or_intror (ex_intro _ example_line eq_refl)))
    as [_ H].
  apply (H example_line [(example_info utc)]); [reflexivity|].
  repeat constructor.
Defined.

Lemma refused_connection_witness :
  fst (invoke (refusing (OperationalError "invalid credentials"))
              local_control (CallStart "demo")
              (fresh (refusing (OperationalError "invalid credentials")) tt))
  = Raise (OperationalError "invalid credentials").
Proof.
  destruct ((refused_connection utc)
              (refusing (OperationalError "invalid credentials"))
              local_control
              (fresh (refusing (OperationalError "invalid credentials")) tt)
              (OperationalError "invalid credentials") tt eq_refl)
    as (_ & H & _).
  apply H.
Defined.
